(** * RobotKing: status normalisation and wake-up dispatch

    A shallow embedding of
    [custom_components/smartthinq_sensors/wideq/devices/robotking.py]:
    the vocabulary tables, the status snapshot [RobotKingStatus] with its
    two memo fields, and the controller [RobotKingDevice] with [poll],
    [reset_status] and [wake_up].

    Python objects are mutated in place; here every method takes the
    object's state and returns the new one next to its result.  The base
    classes [Device] and [DeviceStatus], the constant [StateOptions.NONE]
    and the device metadata live in other modules of the package; what the
    methods below need from them is either a parameter of the development
    or a definition marked as modelled from the specification.  The
    [await] suspension points and the logger calls leave the two objects
    untouched and are dropped. *)

From stdpp Require Import base option list strings gmap.

Local Open Scope string_scope.

(** ** Python string and truthiness primitives *)

(** [str_in sub s] is Python's [sub in s] on two [str] values: substring
    containment. *)
Fixpoint str_in (sub s : string) : bool :=
  String.prefix sub s ||
  match s with
  | EmptyString => false
  | String _ s' => str_in sub s'
  end.

(** [x in l] on a list of strings: membership by equality. *)
Definition list_in (x : string) (l : list string) : bool :=
  existsb (String.eqb x) l.

(** Truthiness of a value that is either [None] or a [str]: [None] and the
    empty string are falsy. *)
Definition truthy (o : option string) : bool :=
  match o with
  | Some (String _ _) => true
  | _ => false
  end.

(** ** Vocabulary tables (module constants) *)

Definition STATE_ROBOT_KING_POWER_OFF : string := "STATE_POWER_OFF".
Definition STATE_ROBOT_KING_END : list string := ["STATE_END"; "STATE_COMPLETE"].
Definition STATE_ROBOT_KING_ERROR_OFF : string := "OFF".
Definition STATE_ROBOT_KING_ERROR_NO_ERROR : list string :=
  ["ERROR_NOERROR"; "ERROR_NOERROR_TITLE"; "No Error"; "No_Error"].

Definition POWER_STATUS_KEY : list string := ["State"; "state"].
Definition CMD_WAKE_UP : list (string * option string) :=
  [("Config", Some "Wakeup"); ("Set", Some "Wakeup"); ("WakeUp", None)].

Definition ADD_FEAT_POLL_INTERVAL : Z := 300.

Inductive RKCleanMode := ZZ | SB | SPOT | MACRO.

Definition RKCleanMode_value (m : RKCleanMode) : string :=
  match m with
  | ZZ => "@RK_TERM_CLEANMODE_ZIGZAG_W"
  | SB => "@RK_TERM_CLEANMODE_SECTOR_W"
  | SPOT => "@RK_TERM_CLEANMODE_FOCUS_W"
  | MACRO => "@RK_TERM_CLEANMODE_MACRO_W"
  end.

(** ** Exceptions and commands *)

Inductive exn :=
  | InvalidDeviceStatus
  | CommandKeyError
  | CollaboratorError.

Inductive outcome (A : Type) :=
  | Return (a : A)
  | Raise (e : exn).
Arguments Return {A} a.
Arguments Raise {A} e.

(** A command as handed to the dispatch collaborator: group, command key
    and value, where Python's [None] is Rocq's [None]. *)
Definition Command : Type := string * option string * option string.

(** ** The status snapshot *)

Section RobotKing.

(** Raw payload values are opaque to this module: they are only stored,
    compared and handed to the device metadata. *)
Context {Value : Type} `{!EqDecision Value}.

(** [StateOptions.NONE] of [..const]: the canonical sentinel of the feature
    side-channel.  The constant is declared outside this module. *)
Variable NONE : string.

(** The read-only device metadata ([DeviceInfo] / model info) the module
    queries: (a) the enum-code-to-label table, (b) the reference table
    resolved on an attribute such as ["title"], the supported command
    pairs, and the raw code of a named run state. *)
Record DeviceInfo := {
  enum_name : string -> Value -> option string;
  reference_name : string -> Value -> string -> option string;
  cmd_supported : string -> option string -> bool;
  runstate_key : string -> Value;
}.

Variable info : DeviceInfo.

(** One [RobotKingStatus] object.  [_data] and [_device_features] are the
    fields of the base class [DeviceStatus]; [_run_state] and [_error] are
    the two memo fields set in [__init__].  [enum_lookups] and
    [ref_lookups] are ghost counters of the calls made to [lookup_enum] and
    [lookup_reference]; no method reads them. *)
Record RobotKingStatus := {
  _data : gmap string Value;
  _device_features : gmap string string;
  _run_state : option string;
  _error : option string;
  enum_lookups : nat;
  ref_lookups : nat;
}.

Definition with_data (d : gmap string Value) (s : RobotKingStatus) :=
  {| _data := d; _device_features := _device_features s;
     _run_state := _run_state s; _error := _error s;
     enum_lookups := enum_lookups s; ref_lookups := ref_lookups s |}.

Definition with_features (f : gmap string string) (s : RobotKingStatus) :=
  {| _data := _data s; _device_features := f;
     _run_state := _run_state s; _error := _error s;
     enum_lookups := enum_lookups s; ref_lookups := ref_lookups s |}.

Definition with_run_state (r : option string) (s : RobotKingStatus) :=
  {| _data := _data s; _device_features := _device_features s;
     _run_state := r; _error := _error s;
     enum_lookups := enum_lookups s; ref_lookups := ref_lookups s |}.

Definition with_error (e : option string) (s : RobotKingStatus) :=
  {| _data := _data s; _device_features := _device_features s;
     _run_state := _run_state s; _error := e;
     enum_lookups := enum_lookups s; ref_lookups := ref_lookups s |}.

Definition tick_enum (s : RobotKingStatus) :=
  {| _data := _data s; _device_features := _device_features s;
     _run_state := _run_state s; _error := _error s;
     enum_lookups := S (enum_lookups s); ref_lookups := ref_lookups s |}.

Definition tick_ref (s : RobotKingStatus) :=
  {| _data := _data s; _device_features := _device_features s;
     _run_state := _run_state s; _error := _error s;
     enum_lookups := enum_lookups s; ref_lookups := S (ref_lookups s) |}.

(** *** Base-class behaviour ([DeviceStatus], declared in [..device]) *)

(** Modelled from the spec: [DeviceStatus.__init__] is not in this module.
    The snapshot owns the payload it is built from; a payload-less snapshot
    has an empty store. *)
Definition DeviceStatus_init (data : option (gmap string Value)) : RobotKingStatus :=
  {| _data := default ∅ data; _device_features := ∅;
     _run_state := None; _error := None;
     enum_lookups := 0; ref_lookups := 0 |}.

(** Modelled from the spec: the key lookup of [DeviceStatus] is not in this
    module.  A field is looked up "under either of two case-variant key
    aliases": the first alias the payload carries is the field's key. *)
Definition _get_data_key (keys : list string) (d : gmap string Value) : option string :=
  List.find (fun k => bool_decide (is_Some (d !! k))) keys.

(** Modelled from the spec: [DeviceStatus.lookup_enum] is not in this
    module.  The raw value found under the first present alias is resolved
    through the device's enumeration table; an absent field gives [None]. *)
Definition lookup_enum (keys : list string) (s : RobotKingStatus)
  : option string * RobotKingStatus :=
  (match _get_data_key keys (_data s) with
   | None => None
   | Some k =>
       match _data s !! k with
       | Some v => enum_name info k v
       | None => None
       end
   end, tick_enum s).

(** Modelled from the spec: [DeviceStatus.lookup_reference] is not in this
    module.  The raw value is a reference code, resolved against the
    reference table on the attribute [ref_key]. *)
Definition lookup_reference (keys : list string) (ref_key : string)
  (s : RobotKingStatus) : option string * RobotKingStatus :=
  (match _get_data_key keys (_data s) with
   | None => None
   | Some k =>
       match _data s !! k with
       | Some v => reference_name info k v ref_key
       | None => None
       end
   end, tick_ref s).

(** Modelled from the spec: [DeviceStatus.update_status] is not in this
    module.  It "performs the actual key/value write and returns whether
    the value changed". *)
Definition DeviceStatus_update_status (key : string) (value : Value)
  (s : RobotKingStatus) : bool * RobotKingStatus :=
  (bool_decide (_data s !! key <> Some value),
   with_data (<[key := value]> (_data s)) s).

(** Modelled from the spec: [DeviceStatus._update_feature] is not in this
    module.  It "records the value under a stable feature key for external
    consumption" and hands the value back. *)
Definition _update_feature (key : string) (status : string)
  (s : RobotKingStatus) : string * RobotKingStatus :=
  (status, with_features (<[key := status]> (_device_features s)) s).

(** *** [RobotKingStatus] methods (robotking.py, lines 86-171) *)

Definition RobotKingStatus_init (data : option (gmap string Value)) : RobotKingStatus :=
  with_error None (with_run_state None (DeviceStatus_init data)).

(** [if not self._run_state:] tests truthiness: the memo is used only when
    it is a non-empty string.  The same test decides the fallback to the
    POWER_OFF sentinel. *)
Definition _get_run_state (s : RobotKingStatus) : string * RobotKingStatus :=
  match _run_state s with
  | Some (String c r) => (String c r, s)
  | _ =>
      let '(state, s1) := lookup_enum ["State"; "state"] s in
      match state with
      | Some (String c r) =>
          (String c r, with_run_state (Some (String c r)) s1)
      | _ =>
          (STATE_ROBOT_KING_POWER_OFF,
           with_run_state (Some STATE_ROBOT_KING_POWER_OFF) s1)
      end
  end.

Definition _get_error (s : RobotKingStatus) : string * RobotKingStatus :=
  match _error s with
  | Some (String c r) => (String c r, s)
  | _ =>
      let '(error, s1) := lookup_reference ["Error"; "error"] "title" s in
      match error with
      | Some (String c r) =>
          (String c r, with_error (Some (String c r)) s1)
      | _ =>
          (STATE_ROBOT_KING_ERROR_OFF,
           with_error (Some STATE_ROBOT_KING_ERROR_OFF) s1)
      end
  end.

Definition update_status (key : string) (value : Value) (s : RobotKingStatus)
  : bool * RobotKingStatus :=
  let '(changed, s1) := DeviceStatus_update_status key value s in
  if negb changed then (false, s1)
  else (true, with_run_state None s1).

Definition is_on (s : RobotKingStatus) : bool * RobotKingStatus :=
  let '(run_state, s1) := _get_run_state s in
  (negb (str_in STATE_ROBOT_KING_POWER_OFF run_state), s1).

Definition is_run_completed (s : RobotKingStatus) : bool * RobotKingStatus :=
  let '(run_state, s1) := _get_run_state s in
  if existsb (fun state => str_in state run_state) STATE_ROBOT_KING_END
     || str_in STATE_ROBOT_KING_POWER_OFF run_state
  then (true, s1)
  else (false, s1).

Definition is_error (s : RobotKingStatus) : bool * RobotKingStatus :=
  let '(on, s1) := is_on s in
  if negb on then (false, s1)
  else
    let '(error, s2) := _get_error s1 in
    if list_in error STATE_ROBOT_KING_ERROR_NO_ERROR
       || String.eqb error STATE_ROBOT_KING_ERROR_OFF
    then (false, s2)
    else (true, s2).

Definition run_state (s : RobotKingStatus) : string * RobotKingStatus :=
  let '(run_state, s1) := _get_run_state s in
  let run_state :=
    if str_in STATE_ROBOT_KING_POWER_OFF run_state then NONE else run_state in
  _update_feature "RUN_STATE" run_state s1.

Definition error_msg (s : RobotKingStatus) : string * RobotKingStatus :=
  let '(err, s1) := is_error s in
  let '(error, s2) :=
    if negb err then (NONE, s1) else _get_error s1 in
  _update_feature "ERROR_MSG" error s2.

Definition _update_features (s : RobotKingStatus) : unit * RobotKingStatus :=
  let '(_, s1) := run_state s in
  let '(_, s2) := error_msg s1 in
  (tt, s2).

(** ** The controller *)

(** The two external collaborators behind [ClientAsync]: the payload
    request of a poll and the command dispatch.  Each either answers or
    raises. *)
Record ClientAsync := {
  request_payload :
    string -> Z -> Z -> bool -> outcome (option (gmap string Value));
  send_command : Command -> outcome unit;
}.

Variable client : ClientAsync.

(** One [RobotKingDevice] object: the standby flag and the stored snapshot
    of the base class [Device].  [dispatched] is a ghost trace of the
    commands handed to the dispatch collaborator, oldest first. *)
Record RobotKingDevice := {
  _stand_by : bool;
  _status : RobotKingStatus;
  dispatched : list Command;
}.

Definition with_stand_by (b : bool) (d : RobotKingDevice) :=
  {| _stand_by := b; _status := _status d; dispatched := dispatched d |}.

Definition with_status (st : RobotKingStatus) (d : RobotKingDevice) :=
  {| _stand_by := _stand_by d; _status := st; dispatched := dispatched d |}.

Definition with_dispatched (l : list Command) (d : RobotKingDevice) :=
  {| _stand_by := _stand_by d; _status := _status d; dispatched := l |}.

(** Controller methods run in a state-and-exception monad: a raise keeps
    the mutations made before it, as in Python. *)
Definition Dev (A : Type) : Type := RobotKingDevice -> outcome A * RobotKingDevice.

Definition dev_ret {A} (a : A) : Dev A := fun d => (Return a, d).

Definition dev_raise {A} (e : exn) : Dev A := fun d => (Raise e, d).

Definition dev_bind {A B} (m : Dev A) (k : A -> Dev B) : Dev B :=
  fun d =>
    match m d with
    | (Return a, d1) => k a d1
    | (Raise e, d1) => (Raise e, d1)
    end.

Definition dev_get {A} (f : RobotKingDevice -> A) : Dev A :=
  fun d => (Return (f d), d).

Definition dev_modify (f : RobotKingDevice -> RobotKingDevice) : Dev unit :=
  fun d => (Return tt, f d).

Notation "x <- m ;; k" := (dev_bind m (fun x => k))
  (at level 100, m at next level, right associativity).
Notation "m ;;; k" := (dev_bind m (fun _ => k))
  (at level 100, right associativity).

(** *** Base-class behaviour ([Device], declared in [..device]) *)

(** Modelled from the spec: [Device._device_poll] is not in this module.
    It is the poll collaborator,
    [request_payload(device_category, aux_poll_interval_v1,
    aux_poll_interval_v2, use_rich_query) -> RawPayload | absent]. *)
Definition _device_poll (device_category : string)
  (additional_poll_interval_v1 additional_poll_interval_v2 : Z)
  (thinq2_query_device : bool) : Dev (option (gmap string Value)) :=
  fun d =>
    (request_payload client device_category additional_poll_interval_v1
       additional_poll_interval_v2 thinq2_query_device, d).

(** Modelled from the spec: [Device.set] is not in this module.  It is the
    command collaborator, [send_command(group, command, value) ->
    success | raises]; the call is recorded in [dispatched] whether or not
    it succeeds. *)
Definition set (ctrl_key : string) (command : option string)
  (value : option string) : Dev unit :=
  fun d =>
    let cmd := (ctrl_key, command, value) in
    (send_command client cmd, with_dispatched (dispatched d ++ [cmd]) d).

(** Modelled from the spec: [Device._get_cmd_keys] is not in this module.
    The table is "an ordered list of [group, command] candidate pairs; the
    core selects the first pair the device's metadata marks as supported",
    and the command is issued "with no payload value".  The spec does not
    say what happens when no pair is supported; here the helper raises. *)
Definition _get_cmd_keys (key_names : list (string * option string)) : Dev Command :=
  match List.find (fun p => cmd_supported info p.1 p.2) key_names with
  | Some (group, command) => dev_ret (group, command, None)
  | None => dev_raise CommandKeyError
  end.

(** Modelled from the spec: [Device._get_runstate_key] is not in this
    module.  It names the raw code of a run state in the device metadata. *)
Definition _get_runstate_key (state_name : string) : Dev Value :=
  dev_ret (runstate_key info state_name).

(** Modelled from the spec: the key resolution of [Device._update_status]
    is not in this module.  The power-status field of a snapshot is the
    alias its payload carries, or the first alias when it carries none. *)
Definition power_status_field (key : list string) (s : RobotKingStatus)
  : option string :=
  match _get_data_key key (_data s) with
  | Some k => Some k
  | None => head key
  end.

(** Modelled from the spec: [Device._update_status] is not in this module.
    It "updates the stored snapshot's power-status field" through the
    snapshot's own [update_status], whose result it drops. *)
Definition _update_status (key : list string) (value : Value) : Dev unit :=
  fun d =>
    match power_status_field key (_status d) with
    | Some k =>
        let '(_, st) := update_status k value (_status d) in
        (Return tt, with_status st d)
    | None => (Return tt, d)
    end.

(** *** [RobotKingDevice] methods (robotking.py, lines 41-73) *)

(** [if not res:] is falsy for [None] and for the empty mapping. *)
Definition payload_truthy (res : option (gmap string Value)) : bool :=
  match res with
  | Some data => negb (bool_decide (data = ∅))
  | None => false
  end.

Definition reset_status : Dev RobotKingStatus :=
  dev_modify (with_status (RobotKingStatus_init None)) ;;;
  dev_get _status.

Definition poll : Dev (option RobotKingStatus) :=
  res <- _device_poll "robotKing" ADD_FEAT_POLL_INTERVAL
           ADD_FEAT_POLL_INTERVAL true ;;
  if negb (payload_truthy res) then dev_ret None
  else
    dev_modify (with_status (RobotKingStatus_init res)) ;;;
    st <- dev_get _status ;;
    dev_ret (Some st).

Definition wake_up : Dev unit :=
  stand_by <- dev_get _stand_by ;;
  if negb stand_by then dev_raise InvalidDeviceStatus
  else
    keys <- _get_cmd_keys CMD_WAKE_UP ;;
    set keys.1.1 keys.1.2 keys.2 ;;;
    dev_modify (with_stand_by false) ;;;
    value <- _get_runstate_key "STATE_INITIAL" ;;
    _update_status POWER_STATUS_KEY value.

(** ** Vocabulary of the properties *)

(** A snapshot is settled once its run-state memo is resolved and, when it
    reads as on, its error memo is resolved too: every later read is
    answered from the memos. *)
Definition settled (s : RobotKingStatus) : Prop :=
  truthy (_run_state s) = true
  /\ ((is_on s).1 = true -> truthy (_error s) = true).

(** The invariant of the run-state memo: once resolved, it holds what a
    fresh snapshot of the same payload resolves to. *)
Definition memo_ok (s : RobotKingStatus) : Prop :=
  truthy (_run_state s) = true ->
  _run_state s
  = Some (_get_run_state (RobotKingStatus_init (Some (_data s)))).1.

(** The command pair [wake_up] resolves for this device. *)
Definition wake_up_pair : option (string * option string) :=
  List.find (fun p => cmd_supported info p.1 p.2) CMD_WAKE_UP.


(** ** Sequences of calls on a snapshot

    What a caller does with a snapshot between two polls: it reads the
    properties, in any order and any number of times, and patches raw
    fields through [update_status]. *)

Inductive read :=
  | ReadIsOn
  | ReadIsRunCompleted
  | ReadIsError
  | ReadRunState
  | ReadErrorMsg.

(** The value a property read returns: a [bool] or a [str]. *)
Inductive pyres :=
  | ResBool (b : bool)
  | ResStr (v : string).

Definition do_read (r : read) (s : RobotKingStatus) : pyres * RobotKingStatus :=
  match r with
  | ReadIsOn => let '(b, s1) := is_on s in (ResBool b, s1)
  | ReadIsRunCompleted => let '(b, s1) := is_run_completed s in (ResBool b, s1)
  | ReadIsError => let '(b, s1) := is_error s in (ResBool b, s1)
  | ReadRunState => let '(v, s1) := run_state s in (ResStr v, s1)
  | ReadErrorMsg => let '(v, s1) := error_msg s in (ResStr v, s1)
  end.

Inductive op :=
  | OpRead (r : read)
  | OpUpdateFeatures
  | OpUpdateStatus (key : string) (value : Value).

Definition do_op (s : RobotKingStatus) (o : op) : RobotKingStatus :=
  match o with
  | OpRead r => (do_read r s).2
  | OpUpdateFeatures => (_update_features s).2
  | OpUpdateStatus key value => (update_status key value s).2
  end.

Definition do_ops (ops : list op) (s : RobotKingStatus) : RobotKingStatus :=
  fold_left do_op ops s.

Definition is_update (o : op) : bool :=
  match o with
  | OpUpdateStatus _ _ => true
  | _ => false
  end.

Definition is_read_op (o : op) : bool := negb (is_update o).

(** The number of [update_status] calls in a sequence. *)
Definition updates (ops : list op) : nat := length (filter is_update ops).

(** Two snapshots that a reader cannot tell apart: the same payload, and
    the same resolved run state and error. *)
Definition same_view (s s' : RobotKingStatus) : Prop :=
  _data s' = _data s
  /\ (_get_run_state s').1 = (_get_run_state s).1
  /\ (_get_error s').1 = (_get_error s).1.

(** Lookups still owed by a snapshot: one per memo not yet resolved. *)
Definition pending_enum (s : RobotKingStatus) : nat :=
  if truthy (_run_state s) then 0 else 1.

Definition pending_ref (s : RobotKingStatus) : nat :=
  if truthy (_error s) then 0 else 1.

End RobotKing.

(** ** Sequences of calls on a controller

    The three methods of [RobotKingDevice], each call with the
    collaborators' behaviour at that moment. *)

Section Calls.

Context {Value : Type} `{!EqDecision Value}.
Variable info : @DeviceInfo Value.

Inductive call :=
  | CallPoll
  | CallResetStatus
  | CallWakeUp.

Definition do_call (d : @RobotKingDevice Value)
  (c : @ClientAsync Value * call) : @RobotKingDevice Value :=
  match c.2 with
  | CallPoll => (poll c.1 d).2
  | CallResetStatus => (reset_status d).2
  | CallWakeUp => (wake_up info c.1 d).2
  end.

Definition do_calls (calls : list (@ClientAsync Value * call))
  (d : @RobotKingDevice Value) : @RobotKingDevice Value :=
  fold_left do_call calls d.

End Calls.

(** ** A concrete device, for evaluating the model

    Raw values are strings.  The enumeration table labels every code with
    itself, the reference table gives a title to two codes, the device
    supports the [Set]/[Wakeup] command pair only, and the raw code of a
    run state is its name. *)
Module Demo.

Definition NONE : string := "-".

Definition info : @DeviceInfo string := {|
  enum_name := fun _ v => Some v;
  reference_name := fun _ v ref_key =>
    if String.eqb ref_key "title" then
      if String.eqb v "0" then Some "ERROR_NOERROR"
      else if String.eqb v "7" then Some "ERROR_BRUSH_JAMMED"
      else None
    else None;
  cmd_supported := fun group command =>
    String.eqb group "Set" && bool_decide (command = Some "Wakeup");
  runstate_key := fun state_name => state_name;
|}.

(** The same device with an enumeration table that has no label for the
    raw code of the initial run state. *)
Definition unlabelled_info : @DeviceInfo string := {|
  enum_name := fun _ v =>
    if String.eqb v "STATE_INITIAL" then None else Some v;
  reference_name := reference_name info;
  cmd_supported := cmd_supported info;
  runstate_key := runstate_key info;
|}.

(** A client whose poll answers nothing and whose dispatch succeeds. *)
Definition client : @ClientAsync string := {|
  request_payload := fun _ _ _ _ => Return None;
  send_command := fun _ => Return tt;
|}.

(** A client whose poll answers a payload and whose dispatch is rejected. *)
Definition failing_client : @ClientAsync string := {|
  request_payload := fun _ _ _ _ =>
    Return (Some {[ "State" := "STATE_WORKING" ]});
  send_command := fun _ => Raise CollaboratorError;
|}.

Definition working_payload : gmap string string :=
  {[ "State" := "STATE_WORKING"; "Error" := "7" ]}.

Definition off_payload : gmap string string :=
  {[ "State" := "STATE_POWER_OFF"; "Error" := "7" ]}.

Definition ended_payload : gmap string string :=
  {[ "state" := "RK_STATE_END_HOMING"; "error" := "0" ]}.

Definition sleeping : @RobotKingDevice string :=
  {| _stand_by := true;
     _status := RobotKingStatus_init (Some off_payload);
     dispatched := [] |}.

(** A working snapshot whose [error_msg] has been read once, so that its
    error memo is resolved. *)
Definition jammed : @RobotKingStatus string :=
  (error_msg NONE info (RobotKingStatus_init (Some working_payload))).2.

Definition awake : @RobotKingDevice string :=
  {| _stand_by := false;
     _status := RobotKingStatus_init (Some working_payload);
     dispatched := [] |}.

End Demo.

Example demo_is_on :
  (is_on Demo.info (RobotKingStatus_init (Some Demo.working_payload))).1 = true.
Proof. vm_compute. reflexivity. Qed.

Example demo_error_msg :
  (error_msg Demo.NONE Demo.info (RobotKingStatus_init (Some Demo.working_payload))).1
  = "ERROR_BRUSH_JAMMED".
Proof. vm_compute. reflexivity. Qed.

Example demo_ended :
  (is_run_completed Demo.info (RobotKingStatus_init (Some Demo.ended_payload))).1 = true
  /\ (error_msg Demo.NONE Demo.info (RobotKingStatus_init (Some Demo.ended_payload))).1 = "-".
Proof. vm_compute. auto. Qed.

Example demo_power_off_hides_error :
  (error_msg Demo.NONE Demo.info Demo.jammed).1 = "ERROR_BRUSH_JAMMED"
  /\ _error (update_status "State" "STATE_POWER_OFF" Demo.jammed).2
     = Some "ERROR_BRUSH_JAMMED"
  /\ (error_msg Demo.NONE Demo.info
        (update_status "State" "STATE_POWER_OFF" Demo.jammed).2).1 = "-".
Proof. vm_compute. auto. Qed.

Example demo_wake_up_unlabelled :
  let r := wake_up Demo.unlabelled_info Demo.client Demo.sleeping in
  r.1 = Return tt /\ _stand_by r.2 = false
  /\ dispatched r.2 = [("Set", Some "Wakeup", None)]
  /\ _data (_status r.2) !! "State" = Some "STATE_INITIAL"
  /\ (_get_run_state Demo.unlabelled_info (_status r.2)).1 = "STATE_POWER_OFF"
  /\ (is_on Demo.unlabelled_info (_status r.2)).1 = false.
Proof. vm_compute. auto 10. Qed.

Example demo_wake_up :
  let r := wake_up Demo.info Demo.client Demo.sleeping in
  r.1 = Return tt /\ _stand_by r.2 = false
  /\ dispatched r.2 = [("Set", Some "Wakeup", None)]
  /\ (is_on Demo.info (_status r.2)).1 = true.
Proof. vm_compute. auto. Qed.
(** ** Substring containment, specified *)

Lemma app_nil_l (s : string) : "" +:+ s = s.
Proof. reflexivity. Qed.

Lemma app_cons (c : Ascii.ascii) (s t : string) :
  String c s +:+ t = String c (s +:+ t).
Proof. reflexivity. Qed.

Lemma prefix_nil (s : string) : String.prefix "" s = true.
Proof. destruct s; reflexivity. Qed.

Lemma prefix_app (p s : string) :
  String.prefix p s = true <-> exists post, s = p +:+ post.
Proof.
  revert s; induction p as [|a p IH]; intros s.
  - rewrite prefix_nil. split; [intros _; exists s; reflexivity | reflexivity].
  - destruct s as [|b s]; simpl.
    + split; [discriminate | intros [post H]; discriminate].
    + destruct (Ascii.ascii_dec a b) as [->|Hne].
      * rewrite IH. split; intros [post H]; exists post.
        -- rewrite app_cons. now rewrite H.
        -- rewrite app_cons in H. now inversion H.
      * split; [discriminate|]. intros [post H]. rewrite app_cons in H.
        inversion H. congruence.
Qed.

Lemma str_in_nil (sub : string) : str_in sub "" = String.prefix sub "".
Proof. unfold str_in. apply orb_false_r. Qed.

Lemma str_in_cons (sub : string) (c : Ascii.ascii) (s : string) :
  str_in sub (String c s) = String.prefix sub (String c s) || str_in sub s.
Proof. reflexivity. Qed.

Lemma str_in_spec (sub s : string) :
  str_in sub s = true <-> exists pre post, s = pre +:+ sub +:+ post.
Proof.
  induction s as [|c s IH].
  - rewrite str_in_nil, prefix_app. split.
    + intros [post H]. exists "", post. exact H.
    + intros [pre [post H]]. destruct pre; [eauto | discriminate].
  - rewrite str_in_cons, orb_true_iff, prefix_app, IH. split.
    + intros [[post H] | [pre [post H]]].
      * exists "", post. exact H.
      * exists (String c pre), post. rewrite app_cons. now rewrite H.
    + intros [pre [post H]]. destruct pre as [|c' pre].
      * left. eauto.
      * right. rewrite app_cons in H. inversion H. eauto.
Qed.

Lemma list_in_In (x : string) (l : list string) :
  list_in x l = true <-> In x l.
Proof.
  unfold list_in. rewrite existsb_exists. split.
  - intros [y [Hy Heq]]. apply String.eqb_eq in Heq. now subst.
  - intros H. exists x. split; [exact H | apply String.eqb_refl].
Qed.

Lemma truthy_Some (o : option string) :
  truthy o = true <-> exists c r, o = Some (String c r).
Proof.
  destruct o as [[|c r]|]; simpl; split; try discriminate; eauto.
  all: intros (? & ? & ?); discriminate.
Qed.

#[local] Arguments str_in : simpl never.
#[local] Arguments list_in : simpl never.

(** ** Properties of the snapshot *)

Section SnapshotProperties.

Context {Value : Type} `{!EqDecision Value}.
Variable NONE : string.
Variable info : @DeviceInfo Value.

Implicit Type s : @RobotKingStatus Value.

(** The run state a snapshot resolves to: its memo when that is truthy,
    otherwise the enumeration lookup with the POWER_OFF fallback. *)
Lemma _get_run_state_cases s :
  (exists c r, _run_state s = Some (String c r)
     /\ _get_run_state info s = (String c r, s))
  \/ (truthy (_run_state s) = false
      /\ exists c r,
           _get_run_state info s
           = (String c r, with_run_state (Some (String c r)) (tick_enum s))).
Proof.
  unfold _get_run_state, lookup_enum.
  destruct (_run_state s) as [[|c r]|]; [right|left|right]; simpl;
    try (split; [reflexivity|]); eauto.
  all: match goal with
       | |- context [match ?o with Some _ => _ | None => _ end] =>
           destruct o as [[|c r]|]
       end; eauto.
Qed.

Lemma _get_error_cases s :
  (exists c r, _error s = Some (String c r)
     /\ _get_error info s = (String c r, s))
  \/ (truthy (_error s) = false
      /\ exists c r,
           _get_error info s
           = (String c r, with_error (Some (String c r)) (tick_ref s))).
Proof.
  unfold _get_error, lookup_reference.
  destruct (_error s) as [[|c r]|]; [right|left|right]; simpl;
    try (split; [reflexivity|]); eauto.
  all: match goal with
       | |- context [match ?o with Some _ => _ | None => _ end] =>
           destruct o as [[|c r]|]
       end; eauto.
Qed.

Lemma _get_run_state_frame s :
  _data (_get_run_state info s).2 = _data s
  /\ _error (_get_run_state info s).2 = _error s
  /\ _device_features (_get_run_state info s).2 = _device_features s
  /\ ref_lookups (_get_run_state info s).2 = ref_lookups s
  /\ _run_state (_get_run_state info s).2 = Some (_get_run_state info s).1.
Proof.
  destruct (_get_run_state_cases s) as [(c & r & Hm & ->)|(_ & c & r & ->)];
    simpl; auto 6.
Qed.

Lemma _get_error_frame s :
  _data (_get_error info s).2 = _data s
  /\ _run_state (_get_error info s).2 = _run_state s
  /\ _device_features (_get_error info s).2 = _device_features s
  /\ enum_lookups (_get_error info s).2 = enum_lookups s
  /\ _error (_get_error info s).2 = Some (_get_error info s).1.
Proof.
  destruct (_get_error_cases s) as [(c & r & Hm & ->)|(_ & c & r & ->)];
    simpl; auto 6.
Qed.

(** What the two getters return depends on the memo and the payload only. *)
Lemma _get_run_state_ext s s' :
  _run_state s = _run_state s' -> _data s = _data s' ->
  (_get_run_state info s).1 = (_get_run_state info s').1.
Proof.
  intros Hm Hd. unfold _get_run_state, lookup_enum. rewrite Hm, Hd.
  destruct (_run_state s') as [[|c r]|]; simpl; try reflexivity.
  all: match goal with
       | |- context [match ?o with Some _ => _ | None => _ end] =>
           destruct o as [[|c r]|]
       end; reflexivity.
Qed.

Lemma _get_error_ext s s' :
  _error s = _error s' -> _data s = _data s' ->
  (_get_error info s).1 = (_get_error info s').1.
Proof.
  intros Hm Hd. unfold _get_error, lookup_reference. rewrite Hm, Hd.
  destruct (_error s') as [[|c r]|]; simpl; try reflexivity.
  all: match goal with
       | |- context [match ?o with Some _ => _ | None => _ end] =>
           destruct o as [[|c r]|]
       end; reflexivity.
Qed.

(** Once resolved, a memo answers without a lookup. *)
Lemma _get_run_state_memo s c r :
  _run_state s = Some (String c r) -> _get_run_state info s = (String c r, s).
Proof. intros H. unfold _get_run_state. now rewrite H. Qed.

Lemma _get_error_memo s c r :
  _error s = Some (String c r) -> _get_error info s = (String c r, s).
Proof. intros H. unfold _get_error. now rewrite H. Qed.

Lemma _get_run_state_nonempty s :
  exists c r, (_get_run_state info s).1 = String c r.
Proof.
  destruct (_get_run_state_cases s) as [(c & r & _ & ->)|(_ & c & r & ->)];
    simpl; eauto.
Qed.

Lemma _get_error_nonempty s :
  exists c r, (_get_error info s).1 = String c r.
Proof.
  destruct (_get_error_cases s) as [(c & r & _ & ->)|(_ & c & r & ->)];
    simpl; eauto.
Qed.

Lemma _get_run_state_again s :
  _get_run_state info (_get_run_state info s).2
  = ((_get_run_state info s).1, (_get_run_state info s).2).
Proof.
  destruct (_get_run_state_nonempty s) as (c & r & Hv).
  destruct (_get_run_state_frame s) as (_ & _ & _ & _ & Hm).
  rewrite Hv in Hm |- *. now apply _get_run_state_memo.
Qed.

Lemma _get_error_again s :
  _get_error info (_get_error info s).2
  = ((_get_error info s).1, (_get_error info s).2).
Proof.
  destruct (_get_error_nonempty s) as (c & r & Hv).
  destruct (_get_error_frame s) as (_ & _ & _ & _ & Hm).
  rewrite Hv in Hm |- *. now apply _get_error_memo.
Qed.

(** The three predicates, read off the resolved strings. *)
Lemma is_on_eq s :
  is_on info s
  = (negb (str_in STATE_ROBOT_KING_POWER_OFF (_get_run_state info s).1),
     (_get_run_state info s).2).
Proof. unfold is_on. now destruct (_get_run_state info s). Qed.

Lemma is_run_completed_eq s :
  is_run_completed info s
  = (existsb (fun state => str_in state (_get_run_state info s).1)
       STATE_ROBOT_KING_END
     || str_in STATE_ROBOT_KING_POWER_OFF (_get_run_state info s).1,
     (_get_run_state info s).2).
Proof.
  unfold is_run_completed. destruct (_get_run_state info s) as [v s1]. simpl.
  now destruct (_ || _).
Qed.

Lemma is_error_eq s :
  (is_error info s).1
  = (is_on info s).1
    && negb (list_in (_get_error info s).1 STATE_ROBOT_KING_ERROR_NO_ERROR
             || String.eqb (_get_error info s).1 STATE_ROBOT_KING_ERROR_OFF).
Proof.
  unfold is_error. rewrite is_on_eq. cbn [fst snd].
  destruct (negb (str_in _ _)); [|reflexivity]. cbn [negb andb].
  destruct (_get_run_state_frame s) as (Hd & He & _).
  rewrite <- (_get_error_ext (_get_run_state info s).2 s He Hd).
  destruct (_get_error info _) as [e s2]. cbn [fst].
  now destruct (_ || _).
Qed.

(** C1. [is_error] is false whenever [is_on] is false; when [is_on] is
    true it is false exactly when the resolved error string is one of the
    NO-ERROR sentinels or the OFF sentinel, and true for every other error
    string. *)
Theorem is_error_power_precedes s :
  ((is_on info s).1 = false -> (is_error info s).1 = false)
  /\ ((is_on info s).1 = true ->
      ((is_error info s).1 = false <->
         (In (_get_error info s).1 STATE_ROBOT_KING_ERROR_NO_ERROR
          \/ (_get_error info s).1 = STATE_ROBOT_KING_ERROR_OFF)))
  /\ ((is_on info s).1 = true ->
      ~ (In (_get_error info s).1 STATE_ROBOT_KING_ERROR_NO_ERROR
         \/ (_get_error info s).1 = STATE_ROBOT_KING_ERROR_OFF) ->
      (is_error info s).1 = true).
Proof.
  rewrite is_error_eq.
  assert (Hdec : list_in (_get_error info s).1 STATE_ROBOT_KING_ERROR_NO_ERROR
                 || String.eqb (_get_error info s).1 STATE_ROBOT_KING_ERROR_OFF
                 = true
                 <-> In (_get_error info s).1 STATE_ROBOT_KING_ERROR_NO_ERROR
                     \/ (_get_error info s).1 = STATE_ROBOT_KING_ERROR_OFF).
  { now rewrite orb_true_iff, list_in_In, String.eqb_eq. }
  split; [|split].
  - intros ->. reflexivity.
  - intros ->. cbn [andb]. rewrite negb_false_iff. exact Hdec.
  - intros -> Hn. cbn [andb]. apply negb_true_iff.
    destruct (_ || _) eqn:E; [|reflexivity]. exfalso. apply Hn. now apply Hdec.
Qed.

(** A field that no alias carries looks up as absent. *)
Lemma lookup_enum_absent keys s :
  Forall (fun k => _data s !! k = None) keys ->
  (lookup_enum info keys s).1 = None.
Proof.
  intros H. unfold lookup_enum, _get_data_key. cbn [fst].
  replace (List.find _ keys) with (@None string); [reflexivity|].
  symmetry. induction H as [|k keys Hk _ IH]; [reflexivity|].
  cbn [List.find]. rewrite Hk.
  rewrite bool_decide_eq_false_2; [exact IH|]. now intros [? ?].
Qed.

Lemma _get_run_state_default s :
  truthy (_run_state s) = false ->
  truthy (lookup_enum info ["State"; "state"] s).1 = false ->
  (_get_run_state info s).1 = STATE_ROBOT_KING_POWER_OFF.
Proof.
  intros Hm Hl. unfold _get_run_state.
  destruct (lookup_enum info _ s) as [state s1]. cbn [fst] in Hl.
  destruct (_run_state s) as [[|c r]|]; try discriminate;
    destruct state as [[|c' r']|]; try discriminate; reflexivity.
Qed.

(** C2. When the run-state lookup of a payload is absent or falsy, the
    snapshot built from it resolves to the POWER_OFF sentinel: [is_on] is
    false and [is_run_completed] is true. *)
Theorem run_state_absent_is_off (data : option (gmap string Value)) :
  truthy (lookup_enum info ["State"; "state"] (RobotKingStatus_init data)).1
    = false ->
  (_get_run_state info (RobotKingStatus_init data)).1
    = STATE_ROBOT_KING_POWER_OFF
  /\ (is_on info (RobotKingStatus_init data)).1 = false
  /\ (is_run_completed info (RobotKingStatus_init data)).1 = true.
Proof.
  intros Hl.
  assert (Hv := _get_run_state_default (RobotKingStatus_init data) eq_refl Hl).
  rewrite is_on_eq, is_run_completed_eq. cbn [fst]. rewrite Hv.
  split; [reflexivity|]. split; vm_compute; reflexivity.
Qed.

(** C3. A resolved run state that contains a TERMINAL sentinel anywhere
    inside it, with any text before and after, makes [is_run_completed]
    true; nothing is asked of [is_on]. *)
Theorem is_run_completed_terminal s (t pre post : string) :
  In t STATE_ROBOT_KING_END ->
  (_get_run_state info s).1 = pre +:+ t +:+ post ->
  (is_run_completed info s).1 = true.
Proof.
  intros Ht Hv. rewrite is_run_completed_eq. cbn [fst].
  apply orb_true_iff. left. apply existsb_exists.
  exists t. split; [exact Ht|]. apply str_in_spec. eauto.
Qed.

Lemma run_state_eq s :
  run_state NONE info s
  = _update_feature "RUN_STATE"
      (if str_in STATE_ROBOT_KING_POWER_OFF (_get_run_state info s).1
       then NONE else (_get_run_state info s).1)
      (_get_run_state info s).2.
Proof. unfold run_state. now destruct (_get_run_state info s). Qed.

(** C9. Provided the resolved run state is not itself the NONE sentinel,
    the [run_state] feature reads NONE exactly when [is_on] is false. *)
Theorem run_state_none_iff_off s :
  (_get_run_state info s).1 <> NONE ->
  ((run_state NONE info s).1 = NONE <-> (is_on info s).1 = false).
Proof.
  intros Hne. rewrite run_state_eq, is_on_eq. cbn [fst _update_feature].
  destruct (str_in _ _); cbn [negb]; split; auto; try discriminate.
  intros H. contradiction.
Qed.

(** *** Memoisation *)

Lemma _get_run_state_lookups s :
  enum_lookups (_get_run_state info s).2 <= S (enum_lookups s).
Proof.
  destruct (_get_run_state_cases s) as [(c & r & _ & ->)|(_ & c & r & ->)];
    simpl; lia.
Qed.

Lemma _get_error_lookups s :
  ref_lookups (_get_error info s).2 <= S (ref_lookups s).
Proof.
  destruct (_get_error_cases s) as [(c & r & _ & ->)|(_ & c & r & ->)];
    simpl; lia.
Qed.

Lemma is_error_state s :
  (is_error info s).2
  = if (is_on info s).1
    then (_get_error info (_get_run_state info s).2).2
    else (_get_run_state info s).2.
Proof.
  unfold is_error. rewrite is_on_eq. cbn [fst snd].
  destruct (negb (str_in _ _)); [|reflexivity]. cbn [negb].
  destruct (_get_error info _) as [e s2]. cbn [snd].
  now destruct (_ || _).
Qed.

Lemma error_msg_eq s :
  error_msg NONE info s
  = _update_feature "ERROR_MSG"
      (if (is_error info s).1 then (_get_error info s).1 else NONE)
      (is_error info s).2.
Proof.
  unfold error_msg.
  pose proof (is_error_state s) as Hst. pose proof (is_error_eq s) as Hb.
  destruct (is_error info s) as [err s1]. cbn [fst snd] in *.
  destruct err; cbn [negb]; [|reflexivity].
  symmetry in Hb. apply andb_true_iff in Hb. destruct Hb as [Hon _].
  rewrite Hon in Hst. subst s1. rewrite _get_error_again.
  destruct (_get_run_state_frame s) as (Hd & He & _).
  now rewrite (_get_error_ext (_get_run_state info s).2 s He Hd).
Qed.

Lemma settled_run_state s :
  truthy (_run_state s) = true -> _get_run_state info s = ((_get_run_state info s).1, s).
Proof.
  intros H. apply truthy_Some in H. destruct H as (c & r & H).
  now rewrite (_get_run_state_memo s c r H).
Qed.

Lemma settled_is_error s :
  settled info s -> (is_error info s).2 = s.
Proof.
  intros [Hr He]. rewrite is_error_state.
  rewrite (settled_run_state s Hr). cbn [snd].
  destruct (is_on info s).1 eqn:Hon; [|reflexivity].
  specialize (He eq_refl). apply truthy_Some in He. destruct He as (c & r & He).
  now rewrite (_get_error_memo s c r He).
Qed.

Lemma settled_after_error_msg s : settled info (error_msg NONE info s).2.
Proof.
  rewrite error_msg_eq. cbn [_update_feature snd]. rewrite is_error_state.
  destruct (_get_run_state_nonempty s) as (c & r & Hv).
  destruct (_get_run_state_frame s) as (Hd & He & _ & _ & Hm).
  rewrite Hv in Hm.
  destruct (is_on info s).1 eqn:Hon.
  - destruct (_get_error_frame (_get_run_state info s).2)
      as (_ & Hr' & _ & _ & He').
    destruct (_get_error_nonempty (_get_run_state info s).2) as (c' & r' & Hv').
    rewrite Hv' in He'. split.
    + cbn [with_features _run_state]. now rewrite Hr', Hm.
    + intros _. cbn [with_features _error]. now rewrite He'.
  - split.
    + cbn [with_features _run_state]. now rewrite Hm.
    + intros Hon'. exfalso. rewrite is_on_eq in Hon, Hon'. cbn [fst] in *.
      rewrite (_get_run_state_ext _ (_get_run_state info s).2) in Hon'
        by reflexivity.
      rewrite _get_run_state_again in Hon'. cbn [fst] in Hon'. congruence.
Qed.

(** C7. Reading [run_state] twice, or [error_msg] twice, with nothing in
    between returns the same value both times; the second read makes no
    lookup, and the two reads together make at most one enumeration lookup
    and at most one reference lookup. *)
Theorem reads_are_memoized s :
  ((run_state NONE info (run_state NONE info s).2).1
     = (run_state NONE info s).1
   /\ enum_lookups (run_state NONE info (run_state NONE info s).2).2
        = enum_lookups (run_state NONE info s).2
   /\ enum_lookups (run_state NONE info (run_state NONE info s).2).2
        <= S (enum_lookups s)
   /\ ref_lookups (run_state NONE info (run_state NONE info s).2).2
        = ref_lookups s)
  /\ ((error_msg NONE info (error_msg NONE info s).2).1
        = (error_msg NONE info s).1
      /\ enum_lookups (error_msg NONE info (error_msg NONE info s).2).2
           = enum_lookups (error_msg NONE info s).2
      /\ ref_lookups (error_msg NONE info (error_msg NONE info s).2).2
           = ref_lookups (error_msg NONE info s).2
      /\ enum_lookups (error_msg NONE info (error_msg NONE info s).2).2
           <= S (enum_lookups s)
      /\ ref_lookups (error_msg NONE info (error_msg NONE info s).2).2
           <= S (ref_lookups s)).
Proof.
  split.
  - set (s1 := (run_state NONE info s).2).
    assert (Hs1 : s1 = with_features
                         (<["RUN_STATE" := (run_state NONE info s).1]>
                            (_device_features (_get_run_state info s).2))
                         (_get_run_state info s).2).
    { unfold s1. now rewrite run_state_eq. }
    destruct (_get_run_state_nonempty s) as (c & r & Hv).
    destruct (_get_run_state_frame s) as (_ & _ & _ & Hrl & Hm).
    rewrite Hv in Hm.
    assert (Hg : _get_run_state info s1 = (String c r, s1)).
    { apply _get_run_state_memo. rewrite Hs1. exact Hm. }
    rewrite (run_state_eq s1), Hg. cbn [fst snd _update_feature].
    split; [|split; [|split]].
    + unfold s1. rewrite run_state_eq. cbn [fst _update_feature].
      now rewrite Hv.
    + reflexivity.
    + rewrite Hs1. cbn. apply _get_run_state_lookups.
    + rewrite Hs1. cbn. exact Hrl.
  - set (s1 := (error_msg NONE info s).2).
    pose proof (settled_after_error_msg s) as Hset. fold s1 in Hset.
    pose proof (settled_is_error s1 Hset) as Hst.
    assert (Hcnt : enum_lookups s1 <= S (enum_lookups s)
                   /\ ref_lookups s1 <= S (ref_lookups s)).
    { unfold s1. rewrite error_msg_eq. cbn [_update_feature snd].
      rewrite is_error_state.
      pose proof (_get_run_state_lookups s) as H1.
      destruct (_get_run_state_frame s) as (_ & _ & _ & H2 & _).
      destruct (is_on info s).1; cbn.
      - destruct (_get_error_frame (_get_run_state info s).2)
          as (_ & _ & _ & H3 & _).
        pose proof (_get_error_lookups (_get_run_state info s).2) as H4.
        lia.
      - lia. }
    rewrite (error_msg_eq s1), Hst. cbn [fst snd _update_feature].
    split; [|split; [reflexivity|split; [reflexivity|exact Hcnt]]].
    (* the value: both reads see the same run state and the same error *)
    rewrite (error_msg_eq s). cbn [fst _update_feature].
    assert (Hdata : _data s1 = _data s /\ _get_run_state info s1 = ((_get_run_state info s).1, s1)).
    { unfold s1. rewrite error_msg_eq. cbn [_update_feature snd].
      rewrite is_error_state.
      destruct (_get_run_state_nonempty s) as (c & r & Hv).
      destruct (_get_run_state_frame s) as (Hd & _ & _ & _ & Hm).
      rewrite Hv in Hm |- *.
      destruct (is_on info s).1.
      - destruct (_get_error_frame (_get_run_state info s).2)
          as (Hd' & Hr' & _).
        split; [cbn; congruence|].
        apply _get_run_state_memo. cbn. congruence.
      - split; [cbn; congruence|].
        apply _get_run_state_memo. cbn. congruence. }
    destruct Hdata as [Hd1 Hg1].
    assert (Hon : (is_on info s1).1 = (is_on info s).1).
    { rewrite !is_on_eq. cbn [fst]. now rewrite Hg1. }
    rewrite !is_error_eq, Hon.
    destruct (is_on info s).1 eqn:Hons; [|reflexivity].
    cbn [andb].
    assert (He1 : (_get_error info s1).1 = (_get_error info s).1).
    { unfold s1. rewrite error_msg_eq. cbn [_update_feature snd].
      rewrite is_error_state, Hons.
      rewrite (_get_error_ext (with_features _ _)
                 (_get_error info (_get_run_state info s).2).2)
        by reflexivity.
      rewrite _get_error_again. cbn [fst].
      destruct (_get_run_state_frame s) as (Hd & He & _).
      now apply _get_error_ext. }
    now rewrite He1.
Qed.

(** *** Targeted updates *)

Lemma update_status_eq key (value : Value) s :
  update_status key value s
  = if (DeviceStatus_update_status key value s).1
    then (true, with_run_state None (DeviceStatus_update_status key value s).2)
    else (false, (DeviceStatus_update_status key value s).2).
Proof.
  unfold update_status.
  destruct (DeviceStatus_update_status key value s) as [[|] s1]; reflexivity.
Qed.

(** A snapshot whose run-state memo is empty reads like a fresh snapshot
    of its payload. *)
Lemma _get_run_state_fresh s :
  truthy (_run_state s) = false ->
  (_get_run_state info s).1
  = (_get_run_state info (RobotKingStatus_init (Some (_data s)))).1.
Proof.
  intros Hm. unfold _get_run_state, lookup_enum. cbn.
  destruct (_run_state s) as [[|c r]|]; try discriminate.
  all: match goal with
       | |- context [match ?o with Some _ => _ | None => _ end] =>
           destruct o as [[|c r]|]
       end; reflexivity.
Qed.

Lemma error_msg_value s :
  (error_msg NONE info s).1
  = if (is_error info s).1 then (_get_error info s).1 else NONE.
Proof. now rewrite error_msg_eq. Qed.

(** C6, as amended.  When the underlying write reports a change,
    [update_status] returns true and clears the run-state memo and nothing
    else: the next [run_state] read is the one of a fresh snapshot of the
    patched payload, and the error memo is the one held before.  The
    [error_msg] feature of a snapshot with a resolved error memo is the
    same after the update as long as [is_on] reads the same.  When the
    write reports no change, [update_status] returns false and both memos
    are kept. *)
Theorem update_status_clears_run_state_only key (value : Value) s :
  ((DeviceStatus_update_status key value s).1 = true ->
   (update_status key value s).1 = true
   /\ (update_status key value s).2
      = with_run_state None (DeviceStatus_update_status key value s).2
   /\ _run_state (update_status key value s).2 = None
   /\ _error (update_status key value s).2 = _error s
   /\ (run_state NONE info (update_status key value s).2).1
      = (run_state NONE info
           (RobotKingStatus_init (Some (<[key := value]> (_data s))))).1
   /\ (truthy (_error s) = true ->
       (is_on info (update_status key value s).2).1 = (is_on info s).1 ->
       (error_msg NONE info (update_status key value s).2).1
       = (error_msg NONE info s).1))
  /\ ((DeviceStatus_update_status key value s).1 = false ->
      (update_status key value s).1 = false
      /\ _run_state (update_status key value s).2 = _run_state s
      /\ _error (update_status key value s).2 = _error s).
Proof.
  rewrite update_status_eq. split; intros Hc; rewrite Hc; cbn [fst snd].
  - split; [reflexivity|]. split; [reflexivity|]. split; [reflexivity|].
    split; [reflexivity|]. split.
    + rewrite !run_state_eq. cbn [fst _update_feature].
      now rewrite (_get_run_state_fresh (with_run_state None _)) by reflexivity.
    + intros He Hon. rewrite !error_msg_value, !is_error_eq, Hon.
      apply truthy_Some in He. destruct He as (c & r & He).
      rewrite (_get_error_memo s c r He).
      rewrite (_get_error_memo (with_run_state None _) c r) by exact He.
      reflexivity.
  - auto.
Qed.

End SnapshotProperties.

(** ** Properties of the controller *)

Section ControllerProperties.

Context {Value : Type} `{!EqDecision Value}.
Variable info : @DeviceInfo Value.
Variable client : @ClientAsync Value.

Implicit Type d : @RobotKingDevice Value.
Implicit Type s : @RobotKingStatus Value.

Lemma wake_up_not_standby d :
  _stand_by d = false ->
  (wake_up info client d).1 = Raise InvalidDeviceStatus
  /\ (wake_up info client d).2 = d.
Proof.
  intros H. unfold wake_up, dev_bind, dev_get. rewrite H. cbn. auto.
Qed.

(** C4. With the standby flag false, [wake_up] raises
    [InvalidDeviceStatus]; no command is dispatched, and the standby flag
    and the stored snapshot are the ones held before. *)
Theorem wake_up_requires_standby d :
  _stand_by d = false ->
  (wake_up info client d).1 = Raise InvalidDeviceStatus
  /\ dispatched (wake_up info client d).2 = dispatched d
  /\ _stand_by (wake_up info client d).2 = _stand_by d
  /\ _status (wake_up info client d).2 = _status d.
Proof.
  intros H. destruct (wake_up_not_standby d H) as [-> ->]. auto.
Qed.

(** The path of [wake_up] out of standby, one collaborator at a time. *)
Lemma wake_up_standby d :
  _stand_by d = true ->
  wake_up info client d
  = match wake_up_pair info with
    | None => (Raise CommandKeyError, d)
    | Some (group, command) =>
        let cmd := (group, command, None) in
        let d1 := with_dispatched (dispatched d ++ [cmd]) d in
        match send_command client cmd with
        | Raise e => (Raise e, d1)
        | Return _ =>
            _update_status POWER_STATUS_KEY (runstate_key info "STATE_INITIAL")
              (with_stand_by false d1)
        end
    end.
Proof.
  intros H. unfold wake_up, dev_bind, dev_get, _get_cmd_keys, wake_up_pair.
  rewrite H. cbn [negb fst snd].
  destruct (List.find _ CMD_WAKE_UP) as [[group command]|]; [|reflexivity].
  unfold dev_ret, set, dev_modify, _get_runstate_key, dev_ret. cbn [fst snd].
  destruct (send_command client _) as [[]|e]; reflexivity.
Qed.

(** C10. If the dispatch made by [wake_up] out of standby raises, the
    exception propagates, the standby flag is still true and the stored
    snapshot is the one held before. *)
Theorem wake_up_dispatch_failure d (keys : Command) (e : exn) :
  _stand_by d = true ->
  (_get_cmd_keys info CMD_WAKE_UP d).1 = Return keys ->
  send_command client keys = Raise e ->
  (wake_up info client d).1 = Raise e
  /\ _stand_by (wake_up info client d).2 = true
  /\ _status (wake_up info client d).2 = _status d
  /\ dispatched (wake_up info client d).2 = (dispatched d ++ [keys])%list.
Proof.
  intros Hs Hk He. rewrite (wake_up_standby d Hs).
  unfold _get_cmd_keys in Hk. fold (wake_up_pair info) in Hk.
  destruct (wake_up_pair info) as [[group command]|]; [|discriminate].
  cbn in Hk. injection Hk as <-. cbn zeta. rewrite He. cbn. auto.
Qed.

(** C8. When the poll collaborator answers nothing, [None] or an empty
    payload, [poll] returns [None] and the controller is exactly as before;
    when it answers a non-empty payload, a fresh snapshot of that payload
    is stored and returned. *)
Theorem poll_empty_keeps_snapshot d (res : option (gmap string Value)) :
  request_payload client "robotKing" ADD_FEAT_POLL_INTERVAL
    ADD_FEAT_POLL_INTERVAL true = Return res ->
  ((res = None \/ res = Some ∅) ->
   poll client d = (Return None, d))
  /\ (forall data, res = Some data -> data <> ∅ ->
      poll client d
      = (Return (Some (RobotKingStatus_init (Some data))),
         with_status (RobotKingStatus_init (Some data)) d)).
Proof.
  intros Hres. unfold poll, dev_bind, _device_poll. rewrite Hres. split.
  - intros [-> | ->]; reflexivity.
  - intros data -> Hne. cbn [payload_truthy].
    rewrite bool_decide_eq_false_2 by exact Hne. reflexivity.
Qed.

(** *** The run-state memo invariant *)

Lemma memo_ok_init (data : option (gmap string Value)) :
  memo_ok info (RobotKingStatus_init data).
Proof. intros H. discriminate. Qed.

Lemma memo_ok_resolves s :
  memo_ok info s ->
  (_get_run_state info s).1
  = (_get_run_state info (RobotKingStatus_init (Some (_data s)))).1.
Proof.
  intros Hok. destruct (truthy (_run_state s)) eqn:Ht.
  - specialize (Hok Ht).
    destruct (_get_run_state_nonempty info (RobotKingStatus_init (Some (_data s))))
      as (c & r & Hv).
    rewrite Hv in Hok |- *. now rewrite (_get_run_state_memo info s c r Hok).
  - now apply _get_run_state_fresh.
Qed.

Lemma memo_ok_get_run_state s :
  memo_ok info s -> memo_ok info (_get_run_state info s).2.
Proof.
  intros Hok _. destruct (_get_run_state_frame info s) as (Hd & _ & _ & _ & Hm).
  rewrite Hm, Hd. f_equal. now apply memo_ok_resolves.
Qed.

Lemma memo_ok_ext s s' :
  _run_state s' = _run_state s -> _data s' = _data s ->
  memo_ok info s -> memo_ok info s'.
Proof. unfold memo_ok. intros -> ->. auto. Qed.

Lemma memo_ok_get_error s :
  memo_ok info s -> memo_ok info (_get_error info s).2.
Proof.
  destruct (_get_error_frame info s) as (Hd & Hr & _).
  now apply memo_ok_ext.
Qed.


Lemma memo_ok_update_status key (value : Value) s :
  memo_ok info s -> memo_ok info (update_status key value s).2.
Proof.
  intros Hok. rewrite update_status_eq.
  destruct (DeviceStatus_update_status key value s).1 eqn:Hc; cbn [snd].
  - intros H. discriminate.
  - unfold DeviceStatus_update_status in Hc. cbn [fst] in Hc.
    apply bool_decide_eq_false in Hc. apply dec_stable in Hc.
    apply (memo_ok_ext s); [reflexivity| |exact Hok].
    cbn. now apply insert_id.
Qed.

Lemma memo_ok_is_on s : memo_ok info s -> memo_ok info (is_on info s).2.
Proof. rewrite is_on_eq. apply memo_ok_get_run_state. Qed.

Lemma memo_ok_is_run_completed s :
  memo_ok info s -> memo_ok info (is_run_completed info s).2.
Proof. rewrite is_run_completed_eq. apply memo_ok_get_run_state. Qed.

Lemma memo_ok_is_error s : memo_ok info s -> memo_ok info (is_error info s).2.
Proof.
  intros Hok. rewrite is_error_state.
  destruct (is_on info s).1; auto using memo_ok_get_error, memo_ok_get_run_state.
Qed.

Lemma memo_ok_run_state NONE s :
  memo_ok info s -> memo_ok info (run_state NONE info s).2.
Proof.
  intros Hok. rewrite run_state_eq.
  apply (memo_ok_ext (_get_run_state info s).2); try reflexivity.
  now apply memo_ok_get_run_state.
Qed.

Lemma memo_ok_error_msg NONE s :
  memo_ok info s -> memo_ok info (error_msg NONE info s).2.
Proof.
  intros Hok. rewrite error_msg_eq.
  apply (memo_ok_ext (is_error info s).2); try reflexivity.
  now apply memo_ok_is_error.
Qed.

(** *** The power-status field after a patch *)








(** *** The invariant on the stored snapshot *)

Lemma memo_ok_reset_status d :
  memo_ok info (_status (reset_status d).2).
Proof. apply memo_ok_init. Qed.

Lemma memo_ok_poll d :
  memo_ok info (_status d) -> memo_ok info (_status (poll client d).2).
Proof.
  intros Hok. unfold poll, dev_bind, _device_poll.
  destruct (request_payload client _ _ _ _) as [res|e]; [|exact Hok].
  cbn [fst snd]. destruct (payload_truthy res); [apply memo_ok_init|exact Hok].
Qed.

Lemma memo_ok_wake_up d :
  memo_ok info (_status d) -> memo_ok info (_status (wake_up info client d).2).
Proof.
  intros Hok. destruct (_stand_by d) eqn:Hs.
  - rewrite (wake_up_standby d Hs).
    destruct (wake_up_pair info) as [[group command]|]; [|exact Hok].
    cbn zeta. destruct (send_command client _) as [[]|e]; [|exact Hok].
    unfold _update_status. cbn [_status with_stand_by with_dispatched].
    destruct (power_status_field _ _) as [k|]; [|exact Hok].
    pose proof (memo_ok_update_status k (runstate_key info "STATE_INITIAL")
                  (_status d) Hok) as Hok'.
    now destruct (update_status k _ (_status d)).
  - destruct (wake_up_not_standby d Hs) as [_ ->]. exact Hok.
Qed.

End ControllerProperties.

(** ** The properties on the concrete device *)


Lemma is_error_power_precedes_witness :
  (is_on Demo.info Demo.jammed).1 = true
  /\ (is_error Demo.info Demo.jammed).1 = true.
Proof.
  split; [reflexivity|].
  apply (is_error_power_precedes Demo.info Demo.jammed); [reflexivity|].
  vm_compute. intros [H|H]; [|discriminate H].
  repeat (destruct H as [H|H]; [discriminate H|]). exact H.
Defined.

Lemma run_state_absent_is_off_witness :
  truthy (lookup_enum Demo.info ["State"; "state"]
            (RobotKingStatus_init (Some {[ "Error" := "7" ]}))).1 = false
  /\ (is_on Demo.info (RobotKingStatus_init (Some {[ "Error" := "7" ]}))).1
     = false
  /\ (is_run_completed Demo.info
        (RobotKingStatus_init (Some {[ "Error" := "7" ]}))).1 = true.
Proof.
  split; [reflexivity|].
  apply (run_state_absent_is_off Demo.info (Some {[ "Error" := "7" ]})).
  reflexivity.
Defined.

Lemma is_run_completed_terminal_witness :
  (_get_run_state Demo.info (RobotKingStatus_init (Some Demo.ended_payload))).1
    = "RK_" +:+ "STATE_END" +:+ "_HOMING"
  /\ (is_run_completed Demo.info
        (RobotKingStatus_init (Some Demo.ended_payload))).1 = true.
Proof.
  split; [reflexivity|].
  apply (is_run_completed_terminal Demo.info
           (RobotKingStatus_init (Some Demo.ended_payload))
           "STATE_END" "RK_" "_HOMING").
  - simpl. auto.
  - reflexivity.
Defined.

Lemma wake_up_requires_standby_witness :
  _stand_by Demo.awake = false
  /\ (wake_up Demo.info Demo.client Demo.awake).1 = Raise InvalidDeviceStatus
  /\ dispatched (wake_up Demo.info Demo.client Demo.awake).2 = []
  /\ _status (wake_up Demo.info Demo.client Demo.awake).2 = _status Demo.awake.
Proof.
  split; [reflexivity|].
  destruct (wake_up_requires_standby Demo.info Demo.client Demo.awake eq_refl)
    as (Hr & Hd & _ & Hs).
  auto.
Defined.



Lemma poll_empty_keeps_snapshot_witness :
  poll Demo.client Demo.awake = (Return None, Demo.awake).
Proof.
  apply (poll_empty_keeps_snapshot Demo.client Demo.awake None).
  - reflexivity.
  - left. reflexivity.
Defined.

Lemma run_state_none_iff_off_witness :
  (_get_run_state Demo.info (RobotKingStatus_init (Some Demo.off_payload))).1
    <> Demo.NONE
  /\ ((run_state Demo.NONE Demo.info
         (RobotKingStatus_init (Some Demo.off_payload))).1 = Demo.NONE
      <-> (is_on Demo.info (RobotKingStatus_init (Some Demo.off_payload))).1
          = false).
Proof.
  assert (H : (_get_run_state Demo.info
                 (RobotKingStatus_init (Some Demo.off_payload))).1 <> Demo.NONE)
    by (intros H; discriminate H).
  split; [exact H|].
  exact (run_state_none_iff_off Demo.NONE Demo.info
           (RobotKingStatus_init (Some Demo.off_payload)) H).
Defined.

Lemma wake_up_dispatch_failure_witness :
  _stand_by Demo.sleeping = true
  /\ (wake_up Demo.info Demo.failing_client Demo.sleeping).1
     = Raise CollaboratorError
  /\ _stand_by (wake_up Demo.info Demo.failing_client Demo.sleeping).2 = true
  /\ _status (wake_up Demo.info Demo.failing_client Demo.sleeping).2
     = _status Demo.sleeping.
Proof.
  split; [reflexivity|].
  destruct (wake_up_dispatch_failure Demo.info Demo.failing_client
              Demo.sleeping ("Set", Some "Wakeup", None) CollaboratorError
              eq_refl eq_refl eq_refl) as (Hr & Hs & Hst & _).
  auto.
Defined.

Lemma update_status_clears_run_state_only_witness :
  (update_status "State" "STATE_HOMING" Demo.jammed).1 = true
  /\ _error (update_status "State" "STATE_HOMING" Demo.jammed).2
     = Some "ERROR_BRUSH_JAMMED"
  /\ (run_state Demo.NONE Demo.info
        (update_status "State" "STATE_HOMING" Demo.jammed).2).1
     = "STATE_HOMING"
  /\ (error_msg Demo.NONE Demo.info
        (update_status "State" "STATE_HOMING" Demo.jammed).2).1
     = (error_msg Demo.NONE Demo.info Demo.jammed).1.
Proof.
  destruct (update_status_clears_run_state_only Demo.NONE Demo.info
              "State" "STATE_HOMING" Demo.jammed) as [Hc _].
  destruct (Hc eq_refl) as (Hr & _ & _ & He & Hrs & Hem).
  split; [exact Hr|]. split; [exact He|]. split; [exact Hrs|].
  apply Hem; reflexivity.
Defined.

(** C6, as stated, fails: a changed write that turns the device off
    changes [error_msg] from the resolved error to NONE, although the error
    memo is resolved and kept. *)
Lemma update_status_changes_error_msg :
  ~ (forall (key value : string) (s : RobotKingStatus),
        (DeviceStatus_update_status key value s).1 = true ->
        truthy (_error s) = true ->
        (error_msg Demo.NONE Demo.info (update_status key value s).2).1
        = (error_msg Demo.NONE Demo.info s).1).
Proof.
  intros H.
  specialize (H "State" "STATE_POWER_OFF" Demo.jammed eq_refl eq_refl).
  vm_compute in H. discriminate H.
Qed.

(** ** Further properties of the snapshot *)

Section SnapshotSequences.

Context {Value : Type} `{!EqDecision Value}.
Variable NONE : string.
Variable info : @DeviceInfo Value.

Implicit Type s : @RobotKingStatus Value.

(** X1. [is_run_completed] is true exactly when the resolved run state
    contains a TERMINAL sentinel somewhere inside it or [is_on] is false:
    an off device always reads as completed. *)
Theorem is_run_completed_iff s :
  (is_run_completed info s).1 = true
  <-> ((exists t pre post,
          In t STATE_ROBOT_KING_END
          /\ (_get_run_state info s).1 = pre +:+ t +:+ post)
       \/ (is_on info s).1 = false).
Proof.
  rewrite is_run_completed_eq, is_on_eq. cbn [fst].
  rewrite orb_true_iff, existsb_exists, negb_false_iff. split.
  - intros [(t & Ht & Hin)|Hoff]; [left|right; exact Hoff].
    apply str_in_spec in Hin. destruct Hin as (pre & post & Hv). eauto 6.
  - intros [(t & pre & post & Ht & Hv)|Hoff]; [left|right; exact Hoff].
    exists t. split; [exact Ht|]. apply str_in_spec. eauto.
Qed.

(** X2. The two features never expose a sentinel: [run_state] is NONE or a
    string without the POWER_OFF sentinel in it, and [error_msg] is NONE or
    a string that is neither a NO-ERROR sentinel nor the OFF sentinel; on a
    snapshot that reads as off both are NONE. *)
Theorem features_hide_sentinels s :
  ((run_state NONE info s).1 = NONE
   \/ str_in STATE_ROBOT_KING_POWER_OFF (run_state NONE info s).1 = false)
  /\ ((error_msg NONE info s).1 = NONE
      \/ (~ In (error_msg NONE info s).1 STATE_ROBOT_KING_ERROR_NO_ERROR
          /\ (error_msg NONE info s).1 <> STATE_ROBOT_KING_ERROR_OFF))
  /\ ((is_on info s).1 = false ->
      (run_state NONE info s).1 = NONE /\ (error_msg NONE info s).1 = NONE).
Proof.
  rewrite run_state_eq, error_msg_value, is_error_eq, is_on_eq.
  cbn [fst _update_feature]. split; [|split].
  - destruct (str_in _ (_get_run_state info s).1) eqn:E; auto.
  - destruct (negb _); cbn [andb]; [|now left].
    destruct (_ || _) eqn:E; cbn [negb]; [now left|right].
    apply orb_false_iff in E. destruct E as [E1 E2]. split.
    + intros Hin. apply list_in_In in Hin. congruence.
    + intros Heq. apply String.eqb_eq in Heq. congruence.
  - intros Hoff. apply negb_false_iff in Hoff. rewrite Hoff. auto.
Qed.

Lemma _get_error_default s :
  truthy (_error s) = false ->
  truthy (lookup_reference info ["Error"; "error"] "title" s).1 = false ->
  (_get_error info s).1 = STATE_ROBOT_KING_ERROR_OFF.
Proof.
  intros Hm Hl. unfold _get_error.
  destruct (lookup_reference info _ _ s) as [error s1]. cbn [fst] in Hl.
  destruct (_error s) as [[|c r]|]; try discriminate;
    destruct error as [[|c' r']|]; try discriminate; reflexivity.
Qed.

(** X14. When the error reference of a payload looks up as absent or
    falsy, the snapshot built from it resolves its error to the OFF
    sentinel: [is_error] is false and [error_msg] is NONE, whether the
    device is on or off. *)
Theorem error_absent_is_no_error (data : option (gmap string Value)) :
  truthy (lookup_reference info ["Error"; "error"] "title"
            (RobotKingStatus_init data)).1 = false ->
  (_get_error info (RobotKingStatus_init data)).1 = STATE_ROBOT_KING_ERROR_OFF
  /\ (is_error info (RobotKingStatus_init data)).1 = false
  /\ (error_msg NONE info (RobotKingStatus_init data)).1 = NONE.
Proof.
  intros Hl.
  assert (Hv := _get_error_default (RobotKingStatus_init data) eq_refl Hl).
  assert (He : (is_error info (RobotKingStatus_init data)).1 = false).
  { rewrite is_error_eq, Hv. apply andb_false_r. }
  split; [exact Hv|]. split; [exact He|].
  now rewrite error_msg_value, He.
Qed.

(** *** Reads do not disturb one another *)

Lemma same_view_refl s : same_view info s s.
Proof. repeat split. Qed.

Lemma same_view_trans s1 s2 s3 :
  same_view info s1 s2 -> same_view info s2 s3 -> same_view info s1 s3.
Proof.
  intros (A1 & A2 & A3) (B1 & B2 & B3). repeat split; congruence.
Qed.

Lemma same_view_get_run_state s : same_view info s (_get_run_state info s).2.
Proof.
  destruct (_get_run_state_frame info s) as (Hd & He & _).
  split; [exact Hd|]. split.
  - now rewrite _get_run_state_again.
  - now apply _get_error_ext.
Qed.

Lemma same_view_get_error s : same_view info s (_get_error info s).2.
Proof.
  destruct (_get_error_frame info s) as (Hd & Hr & _).
  split; [exact Hd|]. split.
  - now apply _get_run_state_ext.
  - now rewrite _get_error_again.
Qed.

Lemma same_view_with_features f s : same_view info s (with_features f s).
Proof.
  split; [reflexivity|]. split.
  - now apply _get_run_state_ext.
  - now apply _get_error_ext.
Qed.

Lemma same_view_is_error s : same_view info s (is_error info s).2.
Proof.
  rewrite is_error_state. destruct (is_on info s).1.
  - eapply same_view_trans; [apply same_view_get_run_state|].
    apply same_view_get_error.
  - apply same_view_get_run_state.
Qed.

Lemma same_view_run_state s : same_view info s (run_state NONE info s).2.
Proof.
  rewrite run_state_eq. cbn [_update_feature snd].
  eapply same_view_trans; [apply same_view_get_run_state|].
  apply same_view_with_features.
Qed.

Lemma same_view_error_msg s : same_view info s (error_msg NONE info s).2.
Proof.
  rewrite error_msg_eq. cbn [_update_feature snd].
  eapply same_view_trans; [apply same_view_is_error|].
  apply same_view_with_features.
Qed.

Lemma do_read_eq (r : read) s :
  do_read NONE info r s
  = match r with
    | ReadIsOn => (ResBool (is_on info s).1, (is_on info s).2)
    | ReadIsRunCompleted =>
        (ResBool (is_run_completed info s).1, (is_run_completed info s).2)
    | ReadIsError => (ResBool (is_error info s).1, (is_error info s).2)
    | ReadRunState =>
        (ResStr (run_state NONE info s).1, (run_state NONE info s).2)
    | ReadErrorMsg =>
        (ResStr (error_msg NONE info s).1, (error_msg NONE info s).2)
    end.
Proof.
  destruct r; cbn [do_read].
  - now destruct (is_on info s).
  - now destruct (is_run_completed info s).
  - now destruct (is_error info s).
  - now destruct (run_state NONE info s).
  - now destruct (error_msg NONE info s).
Qed.

Lemma same_view_do_read (r : read) s :
  same_view info s (do_read NONE info r s).2.
Proof.
  rewrite do_read_eq. destruct r; cbn [snd].
  - rewrite is_on_eq. apply same_view_get_run_state.
  - rewrite is_run_completed_eq. apply same_view_get_run_state.
  - apply same_view_is_error.
  - apply same_view_run_state.
  - apply same_view_error_msg.
Qed.

Lemma same_view_update_features s :
  same_view info s (_update_features NONE info s).2.
Proof.
  unfold _update_features.
  pose proof (same_view_run_state s) as H1.
  destruct (run_state NONE info s) as [v1 s1]. cbn [snd] in H1.
  pose proof (same_view_error_msg s1) as H2.
  destruct (error_msg NONE info s1) as [v2 s2]. cbn [snd] in *.
  eapply same_view_trans; eassumption.
Qed.

(** What a read returns is decided by the view. *)
Lemma do_read_same_view (r : read) s s' :
  same_view info s s' ->
  (do_read NONE info r s').1 = (do_read NONE info r s).1.
Proof.
  intros (_ & Hr & He). rewrite !do_read_eq.
  destruct r; cbn [fst]; f_equal.
  - rewrite !is_on_eq. cbn [fst]. now rewrite Hr.
  - rewrite !is_run_completed_eq. cbn [fst]. now rewrite Hr.
  - rewrite !is_error_eq, !is_on_eq. cbn [fst]. now rewrite Hr, He.
  - rewrite !run_state_eq. cbn [fst _update_feature]. now rewrite Hr.
  - rewrite !error_msg_value, !is_error_eq, !is_on_eq. cbn [fst].
    now rewrite Hr, He.
Qed.

Lemma same_view_do_ops (ops : list op) s :
  forallb is_read_op ops = true ->
  same_view info s (do_ops NONE info ops s).
Proof.
  unfold do_ops. revert s. induction ops as [|o ops IH]; intros s Hall.
  - apply same_view_refl.
  - cbn [forallb] in Hall. apply andb_true_iff in Hall.
    destruct Hall as [Ho Hall]. cbn [fold_left].
    eapply same_view_trans; [|apply IH; exact Hall].
    destruct o as [r| |key value]; cbn [do_op].
    + apply same_view_do_read.
    + apply same_view_update_features.
    + discriminate Ho.
Qed.

(** X3. Property reads do not disturb one another: after any sequence of
    reads and [_update_features] calls, in any order, the payload is
    untouched and every property returns what it would have returned on
    the snapshot before the sequence. *)
Theorem reads_are_order_independent (ops : list op) (r : read) s :
  forallb is_read_op ops = true ->
  _data (do_ops NONE info ops s) = _data s
  /\ (do_read NONE info r (do_ops NONE info ops s)).1
     = (do_read NONE info r s).1.
Proof.
  intros Hall. pose proof (same_view_do_ops ops s Hall) as Hv.
  split; [apply Hv|]. now apply do_read_same_view.
Qed.

(** *** Lookups along a sequence of calls *)

Lemma pending_get_run_state s :
  enum_lookups (_get_run_state info s).2 + pending_enum (_get_run_state info s).2
  = enum_lookups s + pending_enum s
  /\ ref_lookups (_get_run_state info s).2 = ref_lookups s
  /\ _error (_get_run_state info s).2 = _error s.
Proof.
  unfold pending_enum.
  destruct (_get_run_state_cases info s) as [(c & r & Hm & ->)|(Hm & c & r & ->)];
    cbn [snd]; [auto|].
  rewrite Hm. cbn. split; [lia|auto].
Qed.

Lemma pending_get_error s :
  ref_lookups (_get_error info s).2 + pending_ref (_get_error info s).2
  = ref_lookups s + pending_ref s
  /\ enum_lookups (_get_error info s).2 = enum_lookups s
  /\ _run_state (_get_error info s).2 = _run_state s.
Proof.
  unfold pending_ref.
  destruct (_get_error_cases info s) as [(c & r & Hm & ->)|(Hm & c & r & ->)];
    cbn [snd]; [auto|].
  rewrite Hm. cbn. split; [lia|auto].
Qed.

(** A read pays for a lookup out of what the snapshot still owes. *)
Lemma pending_is_error s :
  enum_lookups (is_error info s).2 + pending_enum (is_error info s).2
  = enum_lookups s + pending_enum s
  /\ ref_lookups (is_error info s).2 + pending_ref (is_error info s).2
     = ref_lookups s + pending_ref s.
Proof.
  rewrite is_error_state.
  destruct (pending_get_run_state s) as (He & Hr & Hm).
  destruct (is_on info s).1.
  - destruct (pending_get_error (_get_run_state info s).2) as (Hr' & He' & Hm').
    unfold pending_enum, pending_ref in *. rewrite He', Hm', Hr'.
    rewrite Hm, Hr. auto.
  - unfold pending_ref. rewrite Hm, Hr. auto.
Qed.

Lemma pending_do_read (r : read) s :
  enum_lookups (do_read NONE info r s).2 + pending_enum (do_read NONE info r s).2
  = enum_lookups s + pending_enum s
  /\ ref_lookups (do_read NONE info r s).2 + pending_ref (do_read NONE info r s).2
     = ref_lookups s + pending_ref s.
Proof.
  assert (Hg : enum_lookups (_get_run_state info s).2
               + pending_enum (_get_run_state info s).2
               = enum_lookups s + pending_enum s
               /\ ref_lookups (_get_run_state info s).2
                  + pending_ref (_get_run_state info s).2
                  = ref_lookups s + pending_ref s).
  { destruct (pending_get_run_state s) as (He & Hr & Hm).
    unfold pending_ref. rewrite Hm, Hr. auto. }
  rewrite do_read_eq. destruct r; cbn [snd].
  - rewrite is_on_eq. exact Hg.
  - rewrite is_run_completed_eq. exact Hg.
  - apply pending_is_error.
  - rewrite run_state_eq. exact Hg.
  - rewrite error_msg_eq. apply pending_is_error.
Qed.

Lemma pending_update_features s :
  enum_lookups (_update_features NONE info s).2
  + pending_enum (_update_features NONE info s).2
  = enum_lookups s + pending_enum s
  /\ ref_lookups (_update_features NONE info s).2
     + pending_ref (_update_features NONE info s).2
     = ref_lookups s + pending_ref s.
Proof.
  unfold _update_features.
  pose proof (pending_do_read ReadRunState s) as H1.
  rewrite do_read_eq in H1. cbn [snd] in H1.
  destruct (run_state NONE info s) as [v1 s1]. cbn [snd] in H1.
  pose proof (pending_do_read ReadErrorMsg s1) as H2.
  rewrite do_read_eq in H2. cbn [snd] in H2.
  destruct (error_msg NONE info s1) as [v2 s2]. cbn [snd] in *.
  lia.
Qed.

Lemma pending_update_status key (value : Value) s :
  enum_lookups (update_status key value s).2 = enum_lookups s
  /\ ref_lookups (update_status key value s).2 = ref_lookups s
  /\ _error (update_status key value s).2 = _error s.
Proof.
  rewrite update_status_eq.
  destruct (DeviceStatus_update_status key value s).1; cbn; auto.
Qed.

Lemma pending_enum_le s : pending_enum s <= 1.
Proof. unfold pending_enum. destruct (truthy _); lia. Qed.

Lemma pending_ref_le s : pending_ref s <= 1.
Proof. unfold pending_ref. destruct (truthy _); lia. Qed.

Lemma pending_do_ops (ops : list op) s :
  enum_lookups (do_ops NONE info ops s) + pending_enum (do_ops NONE info ops s)
  <= enum_lookups s + pending_enum s + updates ops
  /\ ref_lookups (do_ops NONE info ops s) + pending_ref (do_ops NONE info ops s)
     = ref_lookups s + pending_ref s.
Proof.
  unfold do_ops. revert s. induction ops as [|o ops IH]; intros s.
  - cbn. lia.
  - cbn [fold_left]. destruct (IH (do_op NONE info s o)) as [IHe IHr].
    destruct o as [r| |key value]; cbn [do_op] in *.
    + destruct (pending_do_read r s) as [He Hr].
      change (updates (OpRead r :: ops)) with (updates ops). lia.
    + destruct (pending_update_features s) as [He Hr].
      change (updates (OpUpdateFeatures :: ops)) with (updates ops). lia.
    + destruct (pending_update_status key value s) as (He & Hr & Hm).
      change (updates (OpUpdateStatus key value :: ops)) with (S (updates ops)).
      pose proof (pending_enum_le (update_status key value s).2).
      unfold pending_ref in *. rewrite Hm, Hr in IHr. lia.
Qed.

(** X4. Along any sequence of property reads, [_update_features] calls and
    [update_status] calls, a snapshot makes at most one reference lookup in
    all, and at most one enumeration lookup plus one for each
    [update_status] call. *)
Theorem lookups_are_bounded (ops : list op) s :
  ref_lookups (do_ops NONE info ops s) <= S (ref_lookups s)
  /\ enum_lookups (do_ops NONE info ops s)
     <= S (enum_lookups s) + updates ops.
Proof.
  destruct (pending_do_ops ops s) as [He Hr].
  pose proof (pending_enum_le s). pose proof (pending_ref_le s). lia.
Qed.

(** *** The two memos along a sequence of calls *)

Lemma error_memo_do_op (o : op) s :
  truthy (_error s) = true -> _error (do_op NONE info s o) = _error s.
Proof.
  intros Ht. apply truthy_Some in Ht. destruct Ht as (c & r & Hm).
  assert (Hg : forall s', _error s' = _error s ->
                 _error (is_error info s').2 = _error s).
  { intros s' Hs'. rewrite is_error_state.
    destruct (_get_run_state_frame info s') as (_ & He & _).
    destruct (is_on info s').1; [|congruence].
    rewrite (_get_error_memo info (_get_run_state info s').2 c r) by congruence.
    cbn [snd]. congruence. }
  assert (Hr : forall s', _error s' = _error s ->
                 _error (run_state NONE info s').2 = _error s).
  { intros s' Hs'. rewrite run_state_eq. cbn [_update_feature snd with_features _error].
    destruct (_get_run_state_frame info s') as (_ & He & _). congruence. }
  assert (He : forall s', _error s' = _error s ->
                 _error (error_msg NONE info s').2 = _error s).
  { intros s' Hs'. rewrite error_msg_eq.
    cbn [_update_feature snd with_features _error]. now apply Hg. }
  destruct o as [rd| |key value]; cbn [do_op].
  - rewrite do_read_eq. destruct rd; cbn [snd]; auto.
    + rewrite is_on_eq. apply (_get_run_state_frame info s).
    + rewrite is_run_completed_eq. apply (_get_run_state_frame info s).
  - unfold _update_features.
    pose proof (Hr s eq_refl) as H1.
    destruct (run_state NONE info s) as [v1 s1]. cbn [snd] in H1.
    pose proof (He s1 H1) as H2.
    destruct (error_msg NONE info s1) as [v2 s2]. exact H2.
  - apply pending_update_status.
Qed.

(** X6. The error memo is written once: after it is resolved, no sequence
    of reads and [update_status] calls changes it, so the resolved error
    stays what it was even when the error field of the payload is
    patched. *)
Theorem error_memo_is_write_once (ops : list op) s :
  truthy (_error s) = true ->
  _error (do_ops NONE info ops s) = _error s
  /\ (_get_error info (do_ops NONE info ops s)).1 = (_get_error info s).1.
Proof.
  intros Ht.
  assert (H : _error (do_ops NONE info ops s) = _error s).
  { unfold do_ops. revert s Ht. induction ops as [|o ops IH]; intros s Ht.
    - reflexivity.
    - cbn [fold_left]. pose proof (error_memo_do_op o s Ht) as Ho.
      rewrite IH by (now rewrite Ho). exact Ho. }
  split; [exact H|].
  apply truthy_Some in Ht. destruct Ht as (c & r & Hm).
  rewrite (_get_error_memo info s c r Hm).
  now rewrite (_get_error_memo info (do_ops NONE info ops s) c r) by congruence.
Qed.

(** X7. [_update_features] records both features: afterwards the feature
    map holds, under RUN_STATE and ERROR_MSG, the values [run_state] and
    [error_msg] return on the snapshot, and every other entry is kept. *)
Theorem _update_features_records s :
  _device_features (_update_features NONE info s).2
  = <["ERROR_MSG" := (error_msg NONE info s).1]>
      (<["RUN_STATE" := (run_state NONE info s).1]> (_device_features s)).
Proof.
  unfold _update_features.
  pose proof (same_view_run_state s) as Hv.
  assert (Hf : _device_features (run_state NONE info s).2
               = <["RUN_STATE" := (run_state NONE info s).1]>
                   (_device_features s)).
  { rewrite run_state_eq. cbn [_update_feature fst snd with_features _device_features].
    now destruct (_get_run_state_frame info s) as (_ & _ & -> & _). }
  destruct (run_state NONE info s) as [v1 s1]. cbn [fst snd] in *.
  pose proof (do_read_same_view ReadErrorMsg s s1 Hv) as Hval.
  rewrite !do_read_eq in Hval. cbn [fst] in Hval. injection Hval as Hval.
  assert (Hf2 : _device_features (error_msg NONE info s1).2
                = <["ERROR_MSG" := (error_msg NONE info s1).1]>
                    (_device_features s1)).
  { rewrite error_msg_eq. cbn [_update_feature fst snd with_features _device_features].
    f_equal. rewrite is_error_state.
    destruct (_get_run_state_frame info s1) as (_ & _ & Hfr & _).
    destruct (is_on info s1).1; [|exact Hfr].
    destruct (_get_error_frame info (_get_run_state info s1).2)
      as (_ & _ & Hfe & _). congruence. }
  destruct (error_msg NONE info s1) as [v2 s2]. cbn [fst snd] in *.
  congruence.
Qed.

Lemma memo_ok_update_features s :
  memo_ok info s -> memo_ok info (_update_features NONE info s).2.
Proof.
  intros Hok. unfold _update_features.
  pose proof (memo_ok_run_state info NONE s Hok) as H1.
  destruct (run_state NONE info s) as [v1 s1]. cbn [snd] in H1.
  pose proof (memo_ok_error_msg info NONE s1 H1) as H2.
  now destruct (error_msg NONE info s1) as [v2 s2].
Qed.

Lemma memo_ok_do_ops (ops : list op) s :
  memo_ok info s -> memo_ok info (do_ops NONE info ops s).
Proof.
  unfold do_ops. revert s. induction ops as [|o ops IH]; intros s Hok.
  - exact Hok.
  - cbn [fold_left]. apply IH.
    destruct o as [r| |key value]; cbn [do_op].
    + rewrite do_read_eq.
      destruct r; cbn [snd];
        auto using memo_ok_is_on, memo_ok_is_run_completed, memo_ok_is_error,
                   memo_ok_run_state, memo_ok_error_msg.
    + now apply memo_ok_update_features.
    + now apply memo_ok_update_status.
Qed.

(** X5. The run state is never stale: after any sequence of reads and
    [update_status] calls on the snapshot built from a payload, [is_on],
    [is_run_completed] and [run_state] return what a fresh snapshot of the
    payload as it is now returns. *)
Theorem run_state_is_never_stale (data : option (gmap string Value))
  (ops : list op) :
  (is_on info (do_ops NONE info ops (RobotKingStatus_init data))).1
  = (is_on info
       (RobotKingStatus_init
          (Some (_data (do_ops NONE info ops (RobotKingStatus_init data)))))).1
  /\ (is_run_completed info
        (do_ops NONE info ops (RobotKingStatus_init data))).1
     = (is_run_completed info
          (RobotKingStatus_init
             (Some (_data (do_ops NONE info ops (RobotKingStatus_init data)))))).1
  /\ (run_state NONE info (do_ops NONE info ops (RobotKingStatus_init data))).1
     = (run_state NONE info
          (RobotKingStatus_init
             (Some (_data (do_ops NONE info ops (RobotKingStatus_init data)))))).1.
Proof.
  pose proof (memo_ok_do_ops ops (RobotKingStatus_init data)
                (memo_ok_init info data)) as Hok.
  apply memo_ok_resolves in Hok.
  rewrite !is_on_eq, !is_run_completed_eq, !run_state_eq.
  cbn [fst _update_feature]. now rewrite Hok.
Qed.

End SnapshotSequences.

(** ** Further properties of the controller *)

Section ControllerSequences.

Context {Value : Type} `{!EqDecision Value}.
Variable NONE : string.
Variable info : @DeviceInfo Value.

Implicit Type d : @RobotKingDevice Value.
Implicit Type client : @ClientAsync Value.

(** X8. [reset_status] stores a payload-less snapshot and returns it; the
    standby flag is kept and nothing is dispatched.  The new snapshot reads
    as off: not on, run completed, no error, and both features NONE. *)
Theorem reset_status_reads_off d :
  (reset_status d).1 = Return (_status (reset_status d).2)
  /\ _status (reset_status d).2 = RobotKingStatus_init None
  /\ _stand_by (reset_status d).2 = _stand_by d
  /\ dispatched (reset_status d).2 = dispatched d
  /\ (is_on info (_status (reset_status d).2)).1 = false
  /\ (is_run_completed info (_status (reset_status d).2)).1 = true
  /\ (is_error info (_status (reset_status d).2)).1 = false
  /\ (run_state NONE info (_status (reset_status d).2)).1 = NONE
  /\ (error_msg NONE info (_status (reset_status d).2)).1 = NONE.
Proof.
  assert (Hs : _status (reset_status d).2 = RobotKingStatus_init None)
    by reflexivity.
  rewrite Hs.
  assert (Hv : (_get_run_state info (@RobotKingStatus_init Value None)).1
               = STATE_ROBOT_KING_POWER_OFF).
  { apply _get_run_state_default; [reflexivity|].
    rewrite (lookup_enum_absent info); [reflexivity|].
    repeat constructor. }
  assert (Hon : (is_on info (@RobotKingStatus_init Value None)).1 = false).
  { rewrite is_on_eq. cbn [fst]. now rewrite Hv. }
  assert (Hc : (is_run_completed info (@RobotKingStatus_init Value None)).1
               = true).
  { rewrite is_run_completed_eq. cbn [fst]. now rewrite Hv. }
  assert (He : (is_error info (@RobotKingStatus_init Value None)).1 = false).
  { rewrite is_error_eq, Hon. reflexivity. }
  assert (Hr : (run_state NONE info (@RobotKingStatus_init Value None)).1
               = NONE).
  { rewrite run_state_eq. cbn [fst _update_feature]. now rewrite Hv. }
  assert (Hm : (error_msg NONE info (@RobotKingStatus_init Value None)).1
               = NONE).
  { rewrite error_msg_value, He. reflexivity. }
  split; [reflexivity|]. split; [reflexivity|]. split; [reflexivity|].
  split; [reflexivity|]. auto.
Qed.

(** X9. [poll] never touches the standby flag and never dispatches a
    command.  When the collaborator raises, the exception propagates and
    the controller is as before; when [poll] returns a snapshot, it is the
    stored one and none of its memos or features is set. *)
Theorem poll_frame client d :
  _stand_by (poll client d).2 = _stand_by d
  /\ dispatched (poll client d).2 = dispatched d
  /\ (forall e,
        request_payload client "robotKing" ADD_FEAT_POLL_INTERVAL
          ADD_FEAT_POLL_INTERVAL true = Raise e ->
        poll client d = (Raise e, d))
  /\ (forall st,
        (poll client d).1 = Return (Some st) ->
        st = _status (poll client d).2
        /\ _run_state st = None /\ _error st = None
        /\ _device_features st = ∅).
Proof.
  unfold poll, dev_bind, _device_poll.
  destruct (request_payload client _ _ _ _) as [res|e0]; cbn [fst snd].
  - destruct (payload_truthy res); cbn.
    + split; [reflexivity|]. split; [reflexivity|].
      split; [intros e He; discriminate He|].
      intros st Hst. injection Hst as <-. auto.
    + split; [reflexivity|]. split; [reflexivity|].
      split; [intros e He; discriminate He|].
      intros st Hst. discriminate Hst.
  - split; [reflexivity|]. split; [reflexivity|].
    split; [intros e He; now injection He as ->|].
    intros st Hst. discriminate Hst.
Qed.

Lemma poll_keeps_flags client d :
  _stand_by (poll client d).2 = _stand_by d
  /\ dispatched (poll client d).2 = dispatched d.
Proof.
  unfold poll, dev_bind, _device_poll.
  destruct (request_payload client _ _ _ _) as [res|e0]; cbn [fst snd]; auto.
  destruct (payload_truthy res); cbn; auto.
Qed.

Lemma wake_up_returns_awake client d :
  (wake_up info client d).1 = Return tt ->
  _stand_by (wake_up info client d).2 = false.
Proof.
  intros Hret. destruct (_stand_by d) eqn:Hs.
  - rewrite (wake_up_standby info client d Hs) in Hret |- *.
    destruct (wake_up_pair info) as [[group command]|];
      [|cbn in Hret; discriminate].
    cbn zeta in Hret |- *.
    destruct (send_command client _) as [[]|e]; [|cbn in Hret; discriminate].
    unfold _update_status. cbn [_status with_stand_by with_dispatched].
    destruct (power_status_field _ _) as [k|]; [|reflexivity].
    now destruct (update_status k _ (_status d)).
  - destruct (wake_up_not_standby info client d Hs) as [Hr _].
    rewrite Hr in Hret. discriminate.
Qed.

(** X10. [wake_up] works once: after a [wake_up] that returned, a second
    [wake_up] raises [InvalidDeviceStatus] and leaves the controller as the
    first one left it, whatever the collaborators would answer. *)
Theorem wake_up_twice client client' d :
  (wake_up info client d).1 = Return tt ->
  wake_up info client' (wake_up info client d).2
  = (Raise InvalidDeviceStatus, (wake_up info client d).2).
Proof.
  intros Hret. apply wake_up_returns_awake in Hret.
  destruct (wake_up_not_standby info client' _ Hret) as [Hr Hd].
  destruct (wake_up info client' (wake_up info client d).2) as [r d2].
  cbn [fst snd] in Hr, Hd. now subst.
Qed.

Lemma awake_do_call d (c : @ClientAsync Value * call) :
  _stand_by d = false ->
  _stand_by (do_call info d c) = false
  /\ dispatched (do_call info d c) = dispatched d.
Proof.
  intros Hs. destruct c as [client []]; unfold do_call; cbn [fst snd].
  - destruct (poll_keeps_flags client d) as [-> ->]. auto.
  - auto.
  - destruct (wake_up_not_standby info client d Hs) as [_ ->]. auto.
Qed.

(** X11. Once the standby flag is false, no sequence of [poll],
    [reset_status] and [wake_up] calls sets it again or dispatches a
    command, whatever the collaborators answer. *)
Theorem awake_never_dispatches (calls : list (@ClientAsync Value * call)) d :
  _stand_by d = false ->
  _stand_by (do_calls info calls d) = false
  /\ dispatched (do_calls info calls d) = dispatched d.
Proof.
  unfold do_calls. revert d. induction calls as [|c calls IH]; intros d Hs.
  - auto.
  - cbn [fold_left]. destruct (awake_do_call d c Hs) as [Hs' Hd'].
    destruct (IH _ Hs') as [IH1 IH2]. split; congruence.
Qed.

Lemma update_status_frame key (value : Value) (s : @RobotKingStatus Value) :
  _error (update_status key value s).2 = _error s
  /\ _device_features (update_status key value s).2 = _device_features s
  /\ enum_lookups (update_status key value s).2 = enum_lookups s
  /\ ref_lookups (update_status key value s).2 = ref_lookups s
  /\ (forall k', k' <> key ->
        _data (update_status key value s).2 !! k' = _data s !! k').
Proof.
  rewrite update_status_eq.
  destruct (DeviceStatus_update_status key value s).1; cbn;
    repeat split; auto; intros k' Hk'; now apply lookup_insert_ne.
Qed.

(** X12. On every path, [wake_up] changes the stored snapshot in its
    power-status field at most: the error memo, the recorded features and
    every other field of the payload are the ones held before, and no
    lookup is made. *)
Theorem wake_up_patches_one_field client d k :
  power_status_field POWER_STATUS_KEY (_status d) = Some k ->
  _error (_status (wake_up info client d).2) = _error (_status d)
  /\ _device_features (_status (wake_up info client d).2)
     = _device_features (_status d)
  /\ enum_lookups (_status (wake_up info client d).2)
     = enum_lookups (_status d)
  /\ ref_lookups (_status (wake_up info client d).2) = ref_lookups (_status d)
  /\ (forall k', k' <> k ->
        _data (_status (wake_up info client d).2) !! k'
        = _data (_status d) !! k').
Proof.
  intros Hk. destruct (_stand_by d) eqn:Hs.
  - rewrite (wake_up_standby info client d Hs).
    destruct (wake_up_pair info) as [[group command]|]; [|cbn; auto].
    cbn zeta. destruct (send_command client _) as [[]|e]; [|cbn; auto].
    unfold _update_status. cbn [_status with_stand_by with_dispatched].
    rewrite Hk.
    pose proof (update_status_frame k (runstate_key info "STATE_INITIAL")
                  (_status d)) as Hf.
    now destruct (update_status k _ (_status d)).
  - destruct (wake_up_not_standby info client d Hs) as [_ ->]. auto.
Qed.

(** X13. On every path, [wake_up] hands at most one command to the
    dispatch collaborator, after the ones already dispatched: a pair of
    [CMD_WAKE_UP] that the device supports, with no value. *)
Theorem wake_up_dispatches_at_most_once client d :
  dispatched (wake_up info client d).2 = dispatched d
  \/ exists group command,
       In (group, command) CMD_WAKE_UP
       /\ cmd_supported info group command = true
       /\ dispatched (wake_up info client d).2
          = (dispatched d ++ [(group, command, None)])%list.
Proof.
  destruct (_stand_by d) eqn:Hs.
  - rewrite (wake_up_standby info client d Hs).
    destruct (wake_up_pair info) as [[group command]|] eqn:Hp; [|now left].
    right. exists group, command. unfold wake_up_pair in Hp.
    apply find_some in Hp. destruct Hp as [Hin Hsup].
    split; [exact Hin|]. split; [exact Hsup|]. cbn zeta.
    destruct (send_command client _) as [[]|e]; [|reflexivity].
    unfold _update_status. cbn [_status with_stand_by with_dispatched].
    destruct (power_status_field _ _) as [k|]; [|reflexivity].
    now destruct (update_status k _ (_status d)).
  - destruct (wake_up_not_standby info client d Hs) as [_ ->]. now left.
Qed.

End ControllerSequences.

(** ** The further properties on the concrete device *)

Lemma error_absent_is_no_error_witness :
  truthy (lookup_reference Demo.info ["Error"; "error"] "title"
            (RobotKingStatus_init (Some {[ "State" := "STATE_WORKING" ]}))).1
    = false
  /\ (is_on Demo.info
        (RobotKingStatus_init (Some {[ "State" := "STATE_WORKING" ]}))).1 = true
  /\ (error_msg Demo.NONE Demo.info
        (RobotKingStatus_init (Some {[ "State" := "STATE_WORKING" ]}))).1
     = Demo.NONE.
Proof.
  split; [reflexivity|]. split; [reflexivity|].
  apply (error_absent_is_no_error Demo.NONE Demo.info
           (Some {[ "State" := "STATE_WORKING" ]})).
  reflexivity.
Defined.

Lemma reads_are_order_independent_witness :
  (do_read Demo.NONE Demo.info ReadErrorMsg
     (do_ops Demo.NONE Demo.info
        [OpRead ReadRunState; OpUpdateFeatures; OpRead ReadIsError]
        (RobotKingStatus_init (Some Demo.working_payload)))).1
  = ResStr "ERROR_BRUSH_JAMMED".
Proof.
  destruct (reads_are_order_independent Demo.NONE Demo.info
              [OpRead ReadRunState; OpUpdateFeatures; OpRead ReadIsError]
              ReadErrorMsg
              (RobotKingStatus_init (Some Demo.working_payload)) eq_refl)
    as [_ H].
  rewrite H. reflexivity.
Defined.

Lemma error_memo_is_write_once_witness :
  truthy (_error Demo.jammed) = true
  /\ (_get_error Demo.info
        (do_ops Demo.NONE Demo.info
           [OpUpdateStatus "Error" "0"; OpRead ReadErrorMsg] Demo.jammed)).1
     = "ERROR_BRUSH_JAMMED".
Proof.
  split; [reflexivity|].
  destruct (error_memo_is_write_once Demo.NONE Demo.info
              [OpUpdateStatus "Error" "0"; OpRead ReadErrorMsg]
              Demo.jammed eq_refl) as [_ H].
  rewrite H. reflexivity.
Defined.

Lemma wake_up_twice_witness :
  (wake_up Demo.info Demo.client Demo.sleeping).1 = Return tt
  /\ (wake_up Demo.info Demo.failing_client
        (wake_up Demo.info Demo.client Demo.sleeping).2).1
     = Raise InvalidDeviceStatus.
Proof.
  assert (H : (wake_up Demo.info Demo.client Demo.sleeping).1 = Return tt)
    by reflexivity.
  split; [exact H|].
  rewrite (wake_up_twice Demo.info Demo.client Demo.failing_client
             Demo.sleeping H).
  reflexivity.
Defined.

Lemma awake_never_dispatches_witness :
  _stand_by Demo.awake = false
  /\ dispatched
       (do_calls Demo.info
          [(Demo.client, CallWakeUp); (Demo.failing_client, CallPoll);
           (Demo.client, CallResetStatus); (Demo.client, CallWakeUp)]
          Demo.awake) = [].
Proof.
  split; [reflexivity|].
  destruct (awake_never_dispatches Demo.info
              [(Demo.client, CallWakeUp); (Demo.failing_client, CallPoll);
               (Demo.client, CallResetStatus); (Demo.client, CallWakeUp)]
              Demo.awake eq_refl) as [_ H].
  exact H.
Defined.

Lemma wake_up_patches_one_field_witness :
  power_status_field POWER_STATUS_KEY (_status Demo.sleeping) = Some "State"
  /\ _data (_status (wake_up Demo.info Demo.client Demo.sleeping).2) !! "Error"
     = Some "7".
Proof.
  split; [reflexivity|].
  destruct (wake_up_patches_one_field Demo.info Demo.client Demo.sleeping
              "State" eq_refl) as (_ & _ & _ & _ & H).
  rewrite (H "Error") by discriminate. reflexivity.
Defined.
